(** * intent-go: the normalisation and validation pipeline

    A shallow embedding of
      - [intent.go]            (NormalizedCommand, Intent, Side, TPLevel),
      - [validators/command.go] (ValidateCommand and its per-intent helpers),
      - [witai/transformer.go]  (transformWitResponse, normalizeSymbol,
                                 normalizeSide, mapWitIntent, parseTPLevels),
    together with the properties of the specification that concern them.

    Go's [string] is a byte sequence: it is modelled by [string] (a list of
    8-bit [ascii]).  Go's [float64] is IEEE 754 binary64: it is modelled by
    the primitive [float], whose operations are the same IEEE operations.
    A pointer field [*T] that may be [nil] is an [option T].  The validator
    mutates the command through a pointer; here every function takes the
    command and returns the command after the mutation. *)

From Stdlib Require Import ZArith Lia Floats Ascii String.
From stdpp Require Import base tactics option list strings pretty gmap.

Local Open Scope string_scope.
Local Open Scope list_scope.

(** ** Go's [strings] package on byte strings *)

Module GoStrings.

Definition byte_in (lo hi : N) (c : ascii) : bool :=
  (lo <=? N_of_ascii c)%N && (N_of_ascii c <=? hi)%N.

Definition byte_is (n : N) (c : ascii) : bool := (N_of_ascii c =? n)%N.

(** [unicode.ToUpper] / [unicode.ToLower] on one byte.  Go maps every rune
    through the Unicode case tables; the model covers the ASCII letters and
    leaves any other byte as it is, which is what Go does on ASCII text. *)
Definition upper_byte (c : ascii) : ascii :=
  if byte_in 97 122 c then ascii_of_N (N_of_ascii c - 32) else c.

Definition lower_byte (c : ascii) : ascii :=
  if byte_in 65 90 c then ascii_of_N (N_of_ascii c + 32) else c.

Fixpoint ToUpper (s : string) : string :=
  match s with
  | EmptyString => EmptyString
  | String c r => String (upper_byte c) (ToUpper r)
  end.

Fixpoint ToLower (s : string) : string :=
  match s with
  | EmptyString => EmptyString
  | String c r => String (lower_byte c) (ToLower r)
  end.

(** [unicode.IsSpace], read on the UTF-8 encoding of the rune: the one-byte
    runes '\t' '\n' '\v' '\f' '\r' ' ', the two-byte runes U+0085 and
    U+00A0, and the three-byte runes U+1680, U+2000..U+200A, U+2028,
    U+2029, U+202F, U+205F, U+3000. *)
Definition isSpace1 (c : ascii) : bool :=
  byte_in 9 13 c || byte_is 32 c.

Definition isSpace2 (c1 c2 : ascii) : bool :=
  byte_is 194 c1 && (byte_is 133 c2 || byte_is 160 c2).

Definition isSpace3 (c1 c2 c3 : ascii) : bool :=
  (byte_is 225 c1 && byte_is 154 c2 && byte_is 128 c3)
  || (byte_is 226 c1 && byte_is 128 c2
      && (byte_in 128 138 c3 || byte_is 168 c3 || byte_is 169 c3 || byte_is 175 c3))
  || (byte_is 226 c1 && byte_is 129 c2 && byte_is 159 c3)
  || (byte_is 227 c1 && byte_is 128 c2 && byte_is 128 c3).

(** [strings.TrimLeftFunc(s, unicode.IsSpace)]: drop white-space runes from
    the front until a rune (or an invalid byte) that is not white space. *)
Fixpoint trimLeftSpace (s : string) : string :=
  match s with
  | EmptyString => s
  | String c1 r1 =>
      if isSpace1 c1 then trimLeftSpace r1 else
      match r1 with
      | EmptyString => s
      | String c2 r2 =>
          if isSpace2 c1 c2 then trimLeftSpace r2 else
          match r2 with
          | EmptyString => s
          | String c3 r3 => if isSpace3 c1 c2 c3 then trimLeftSpace r3 else s
          end
      end
  end.

(** The same scan on the reversed string, the bytes of a rune met last
    byte first ([utf8.DecodeLastRuneInString]). *)
Fixpoint trimLeftSpaceRev (s : string) : string :=
  match s with
  | EmptyString => s
  | String c1 r1 =>
      if isSpace1 c1 then trimLeftSpaceRev r1 else
      match r1 with
      | EmptyString => s
      | String c2 r2 =>
          if isSpace2 c2 c1 then trimLeftSpaceRev r2 else
          match r2 with
          | EmptyString => s
          | String c3 r3 => if isSpace3 c3 c2 c1 then trimLeftSpaceRev r3 else s
          end
      end
  end.

Definition trimRightSpace (s : string) : string :=
  String.rev (trimLeftSpaceRev (String.rev s)).

(** [strings.TrimSpace]. *)
Definition TrimSpace (s : string) : string :=
  trimRightSpace (trimLeftSpace s).

(** [strings.HasSuffix(s, suffix)]. *)
Definition HasSuffix (s suffix : string) : bool :=
  let n := String.length s in
  let k := String.length suffix in
  (k <=? n)%nat && String.eqb (String.substring (n - k) k s) suffix.

(** [strings.Split(s, sep)] for a separator of one byte, as both calls of
    the source have it ("," and ":"): the pieces between the occurrences
    of [sep], one more than there are occurrences. *)
Fixpoint Split (s : string) (sep : ascii) : list string :=
  match s with
  | EmptyString => [EmptyString]
  | String c r =>
      if Ascii.eqb c sep then EmptyString :: Split r sep
      else match Split r sep with
           | piece :: pieces => String c piece :: pieces
           | [] => [String c EmptyString]
           end
  end.

End GoStrings.

(** ** Go's [float64] and [fmt.Sprintf("%.1f", x)] *)

Module GoFloat.

Local Open Scope float_scope.

(** Go's comparison operators on [float64]. *)
Definition le (x y : float) : bool := x <=? y.
Definition lt (x y : float) : bool := x <? y.
Definition ge (x y : float) : bool := y <=? x.
Definition gt (x y : float) : bool := y <? x.

Local Close Scope float_scope.
Local Open Scope Z_scope.

(** [num / den] rounded to the nearest integer, ties to even ([den > 0]). *)
Definition round_half_even (num den : Z) : Z :=
  let q := num / den in
  let r := num mod den in
  match (2 * r) ?= den with
  | Lt => q
  | Gt => q + 1
  | Eq => if Z.even q then q else q + 1
  end.

(** The tenths in [m * 2^e], correctly rounded. *)
Definition tenths (m : positive) (e : Z) : Z :=
  if 0 <=? e then Z.pos m * 2 ^ e * 10
  else round_half_even (Z.pos m * 10) (2 ^ (- e)).

Definition digits_f1 (t : Z) : string :=
  (pretty (t / 10) ++ "." ++ pretty (t mod 10))%string.

(** [fmt.Sprintf("%.1f", x)]: the exact decimal value of [x] rounded to
    one digit after the point (ties to even), "NaN", "+Inf" or "-Inf". *)
Definition FormatFloat_f1 (x : float) : string :=
  match Prim2SF x with
  | S754_nan => "NaN"
  | S754_infinity false => "+Inf"
  | S754_infinity true => "-Inf"
  | S754_zero s => ((if s then "-" else "") ++ "0.0")%string
  | S754_finite s m e => ((if s then "-" else "") ++ digits_f1 (tenths m e))%string
  end.

End GoFloat.

(** ** intent.go: the data model *)

(** [type Intent string], [type Side string] and their constants. *)
Module types.

Definition Intent := string.

Definition IntentOpenPosition : Intent := "open_position".
Definition IntentClosePosition : Intent := "close_position".
Definition IntentViewPositions : Intent := "view_positions".
Definition IntentViewOrders : Intent := "view_orders".
Definition IntentCancelOrders : Intent := "cancel_orders".
Definition IntentCheckBalance : Intent := "check_balance".
Definition IntentBreakEven : Intent := "break_even".
Definition IntentTrailingStop : Intent := "trailing_stop".
Definition IntentUnknown : Intent := "unknown".

Definition Side := string.

Definition SideLong : Side := "LONG".
Definition SideShort : Side := "SHORT".

(** [time.Time], as an instant counted in nanoseconds. *)
Definition Time := Z.

End types.

Record TPLevel : Type := mkTPLevel {
  Price : float;
  Percentage : float
}.

Record NormalizedCommand : Type := mkNormalizedCommand {
  Intent : types.Intent;
  Confidence : float;
  Symbol : string;
  Side : option types.Side;
  EntryPrice : option float;
  StopLoss : option float;
  TakeProfit : option float;
  TriggerPrice : option float;
  TPLevels : list TPLevel;
  RiskPercent : option float;
  RRRatio : option float;
  CallbackRate : option float;
  Distance : option float;
  Valid : bool;
  Missing : list string;
  Errors : list string;
  RawInput : string;
  Language : string;
  Timestamp : types.Time
}.

(** Assignments to one field of the command ([cmd.F = v]). *)
Definition set_Intent (v : types.Intent) (c : NormalizedCommand) : NormalizedCommand :=
  mkNormalizedCommand v (Confidence c) (Symbol c) (Side c) (EntryPrice c) (StopLoss c)
    (TakeProfit c) (TriggerPrice c) (TPLevels c) (RiskPercent c) (RRRatio c)
    (CallbackRate c) (Distance c) (Valid c) (Missing c) (Errors c) (RawInput c)
    (Language c) (Timestamp c).

Definition set_Confidence (v : float) (c : NormalizedCommand) : NormalizedCommand :=
  mkNormalizedCommand (Intent c) v (Symbol c) (Side c) (EntryPrice c) (StopLoss c)
    (TakeProfit c) (TriggerPrice c) (TPLevels c) (RiskPercent c) (RRRatio c)
    (CallbackRate c) (Distance c) (Valid c) (Missing c) (Errors c) (RawInput c)
    (Language c) (Timestamp c).

Definition set_Symbol (v : string) (c : NormalizedCommand) : NormalizedCommand :=
  mkNormalizedCommand (Intent c) (Confidence c) v (Side c) (EntryPrice c) (StopLoss c)
    (TakeProfit c) (TriggerPrice c) (TPLevels c) (RiskPercent c) (RRRatio c)
    (CallbackRate c) (Distance c) (Valid c) (Missing c) (Errors c) (RawInput c)
    (Language c) (Timestamp c).

Definition set_Side (v : option types.Side) (c : NormalizedCommand) : NormalizedCommand :=
  mkNormalizedCommand (Intent c) (Confidence c) (Symbol c) v (EntryPrice c) (StopLoss c)
    (TakeProfit c) (TriggerPrice c) (TPLevels c) (RiskPercent c) (RRRatio c)
    (CallbackRate c) (Distance c) (Valid c) (Missing c) (Errors c) (RawInput c)
    (Language c) (Timestamp c).

Definition set_EntryPrice (v : option float) (c : NormalizedCommand) : NormalizedCommand :=
  mkNormalizedCommand (Intent c) (Confidence c) (Symbol c) (Side c) v (StopLoss c)
    (TakeProfit c) (TriggerPrice c) (TPLevels c) (RiskPercent c) (RRRatio c)
    (CallbackRate c) (Distance c) (Valid c) (Missing c) (Errors c) (RawInput c)
    (Language c) (Timestamp c).

Definition set_StopLoss (v : option float) (c : NormalizedCommand) : NormalizedCommand :=
  mkNormalizedCommand (Intent c) (Confidence c) (Symbol c) (Side c) (EntryPrice c) v
    (TakeProfit c) (TriggerPrice c) (TPLevels c) (RiskPercent c) (RRRatio c)
    (CallbackRate c) (Distance c) (Valid c) (Missing c) (Errors c) (RawInput c)
    (Language c) (Timestamp c).

Definition set_TakeProfit (v : option float) (c : NormalizedCommand) : NormalizedCommand :=
  mkNormalizedCommand (Intent c) (Confidence c) (Symbol c) (Side c) (EntryPrice c)
    (StopLoss c) v (TriggerPrice c) (TPLevels c) (RiskPercent c) (RRRatio c)
    (CallbackRate c) (Distance c) (Valid c) (Missing c) (Errors c) (RawInput c)
    (Language c) (Timestamp c).

Definition set_TriggerPrice (v : option float) (c : NormalizedCommand) : NormalizedCommand :=
  mkNormalizedCommand (Intent c) (Confidence c) (Symbol c) (Side c) (EntryPrice c)
    (StopLoss c) (TakeProfit c) v (TPLevels c) (RiskPercent c) (RRRatio c)
    (CallbackRate c) (Distance c) (Valid c) (Missing c) (Errors c) (RawInput c)
    (Language c) (Timestamp c).

Definition set_TPLevels (v : list TPLevel) (c : NormalizedCommand) : NormalizedCommand :=
  mkNormalizedCommand (Intent c) (Confidence c) (Symbol c) (Side c) (EntryPrice c)
    (StopLoss c) (TakeProfit c) (TriggerPrice c) v (RiskPercent c) (RRRatio c)
    (CallbackRate c) (Distance c) (Valid c) (Missing c) (Errors c) (RawInput c)
    (Language c) (Timestamp c).

Definition set_RiskPercent (v : option float) (c : NormalizedCommand) : NormalizedCommand :=
  mkNormalizedCommand (Intent c) (Confidence c) (Symbol c) (Side c) (EntryPrice c)
    (StopLoss c) (TakeProfit c) (TriggerPrice c) (TPLevels c) v (RRRatio c)
    (CallbackRate c) (Distance c) (Valid c) (Missing c) (Errors c) (RawInput c)
    (Language c) (Timestamp c).

Definition set_CallbackRate (v : option float) (c : NormalizedCommand) : NormalizedCommand :=
  mkNormalizedCommand (Intent c) (Confidence c) (Symbol c) (Side c) (EntryPrice c)
    (StopLoss c) (TakeProfit c) (TriggerPrice c) (TPLevels c) (RiskPercent c) (RRRatio c)
    v (Distance c) (Valid c) (Missing c) (Errors c) (RawInput c)
    (Language c) (Timestamp c).

Definition set_Valid (v : bool) (c : NormalizedCommand) : NormalizedCommand :=
  mkNormalizedCommand (Intent c) (Confidence c) (Symbol c) (Side c) (EntryPrice c)
    (StopLoss c) (TakeProfit c) (TriggerPrice c) (TPLevels c) (RiskPercent c) (RRRatio c)
    (CallbackRate c) (Distance c) v (Missing c) (Errors c) (RawInput c)
    (Language c) (Timestamp c).

Definition set_Missing (v : list string) (c : NormalizedCommand) : NormalizedCommand :=
  mkNormalizedCommand (Intent c) (Confidence c) (Symbol c) (Side c) (EntryPrice c)
    (StopLoss c) (TakeProfit c) (TriggerPrice c) (TPLevels c) (RiskPercent c) (RRRatio c)
    (CallbackRate c) (Distance c) (Valid c) v (Errors c) (RawInput c)
    (Language c) (Timestamp c).

Definition set_Errors (v : list string) (c : NormalizedCommand) : NormalizedCommand :=
  mkNormalizedCommand (Intent c) (Confidence c) (Symbol c) (Side c) (EntryPrice c)
    (StopLoss c) (TakeProfit c) (TriggerPrice c) (TPLevels c) (RiskPercent c) (RRRatio c)
    (CallbackRate c) (Distance c) (Valid c) (Missing c) v (RawInput c)
    (Language c) (Timestamp c).

(** ** validators/command.go *)

Module validators.

Import GoFloat.

(** [cmd.Missing = append(cmd.Missing, name); cmd.Valid = false] *)
Definition reportMissing (name : string) (cmd : NormalizedCommand) : NormalizedCommand :=
  set_Valid false (set_Missing (Missing cmd ++ [name]) cmd).

(** [cmd.Errors = append(cmd.Errors, msg); cmd.Valid = false] *)
Definition reportError (msg : string) (cmd : NormalizedCommand) : NormalizedCommand :=
  set_Valid false (set_Errors (Errors cmd ++ [msg]) cmd).

(** [p == nil] *)
Definition is_nil {A} (p : option A) : bool :=
  match p with None => true | Some _ => false end.

(** The loop [for _, tp := range cmd.TPLevels { totalPct += tp.Percentage }]
    from [totalPct := 0.0]. *)
Definition totalPct (levels : list TPLevel) : float :=
  fold_left (fun acc tp => (acc + Percentage tp)%float) levels 0%float.

Definition tp_sum_message (total : float) : string :=
  "TP percentages sum to " ++ FormatFloat_f1 total ++ "%, cannot exceed 100%".

Definition validateOpenPosition (cmd : NormalizedCommand) : NormalizedCommand :=
  (* Required: symbol, side, entry price, stop loss, risk *)
  let cmd := if String.eqb (Symbol cmd) "" then reportMissing "symbol" cmd else cmd in
  let cmd := if is_nil (Side cmd) then reportMissing "side" cmd else cmd in
  let cmd := if is_nil (EntryPrice cmd) then reportMissing "entry_price" cmd else cmd in
  let cmd := if is_nil (StopLoss cmd) then reportMissing "stop_loss" cmd else cmd in
  let cmd := if is_nil (RiskPercent cmd) then reportMissing "risk_percent" cmd else cmd in
  (* Validate ranges *)
  let cmd :=
    match RiskPercent cmd with
    | Some risk =>
        if le risk 0 || gt risk 100
        then reportError "risk_percent must be between 0 and 100" cmd
        else cmd
    | None => cmd
    end in
  (* Validate price logic *)
  let cmd :=
    match Side cmd, EntryPrice cmd, StopLoss cmd with
    | Some side, Some entry, Some stop =>
        let cmd :=
          if String.eqb side types.SideLong && ge stop entry
          then reportError "stop_loss must be below entry_price for LONG" cmd
          else cmd in
        if String.eqb side types.SideShort && le stop entry
        then reportError "stop_loss must be above entry_price for SHORT" cmd
        else cmd
    | _, _, _ => cmd
    end in
  (* Validate TP levels *)
  if (0 <? length (TPLevels cmd))%nat then
    let total := totalPct (TPLevels cmd) in
    if gt total 100 then reportError (tp_sum_message total) cmd else cmd
  else cmd.

Definition validateClosePosition (cmd : NormalizedCommand) : NormalizedCommand :=
  if String.eqb (Symbol cmd) "" then reportMissing "symbol" cmd else cmd.

Definition validateTrailingStop (cmd : NormalizedCommand) : NormalizedCommand :=
  let cmd := if String.eqb (Symbol cmd) "" then reportMissing "symbol" cmd else cmd in
  let cmd := if is_nil (TriggerPrice cmd) then reportMissing "trigger_price" cmd else cmd in
  if is_nil (CallbackRate cmd) && is_nil (Distance cmd)
  then reportMissing "callback_rate or distance" cmd
  else cmd.

Definition validateBreakEven (cmd : NormalizedCommand) : NormalizedCommand :=
  if String.eqb (Symbol cmd) "" then reportMissing "symbol" cmd else cmd.

(** [case a, b, c, d:] of the [switch]. *)
Definition no_validation (i : types.Intent) : bool :=
  String.eqb i types.IntentCancelOrders || String.eqb i types.IntentViewPositions
  || String.eqb i types.IntentViewOrders || String.eqb i types.IntentCheckBalance.

Definition unknown_intent_message (i : types.Intent) : string :=
  "unknown intent: " ++ i.

Definition ValidateCommand (cmd : NormalizedCommand) : NormalizedCommand :=
  let cmd := set_Valid true cmd in
  let cmd := set_Missing [] cmd in
  let cmd := set_Errors [] cmd in
  if String.eqb (Intent cmd) types.IntentOpenPosition then validateOpenPosition cmd
  else if String.eqb (Intent cmd) types.IntentClosePosition then validateClosePosition cmd
  else if String.eqb (Intent cmd) types.IntentTrailingStop then validateTrailingStop cmd
  else if String.eqb (Intent cmd) types.IntentBreakEven then validateBreakEven cmd
  else if no_validation (Intent cmd) then cmd
  else
    let cmd := set_Valid false cmd in
    set_Errors (Errors cmd ++ [unknown_intent_message (Intent cmd)]) cmd.

End validators.

(** ** witai/types.go and witai/transformer.go *)

Module witai.

Import GoStrings.

Module WitAIIntent.
Record t : Type := mk {
  ID : string;
  Name : string;
  Confidence : float
}.
End WitAIIntent.

Module WitAIEntity.
Record t : Type := mk {
  ID : string;
  Name : string;
  Role : string;
  Start : Z;
  End_ : Z;
  Body : string;
  Value : string;
  Confidence : float;
  Type_ : string
}.
End WitAIEntity.

(** [Entities] is a Go map that the transformer only ranges over: it is
    kept as the list of its entries in the order the [range] visits them.
    [Traits] (values of type [interface{}]) is never read. *)
Record WitAIResponse : Type := mkWitAIResponse {
  Text : string;
  Intents : list WitAIIntent.t;
  Entities : list (string * list WitAIEntity.t);
  Traits : list (string * list string)
}.

Definition symbolMap : gmap string string :=
  list_to_map
    [ ("bitcoin", "BTC-USDT"); ("btc", "BTC-USDT");
      ("ethereum", "ETH-USDT"); ("eth", "ETH-USDT");
      ("solana", "SOL-USDT"); ("sol", "SOL-USDT");
      ("bnb", "BNB-USDT"); ("xrp", "XRP-USDT");
      ("ada", "ADA-USDT"); ("cardano", "ADA-USDT");
      ("doge", "DOGE-USDT"); ("dogecoin", "DOGE-USDT") ].

(** normalizeSymbol converts various formats to standard "BTC-USDT" *)
Definition normalizeSymbol (symbol : string) : string :=
  let normalized := ToLower (TrimSpace symbol) in
  match symbolMap !! normalized with
  | Some mapped => mapped
  | None =>
      (* Assume it's already a symbol, format it *)
      let symbol := ToUpper symbol in
      if negb (HasSuffix symbol "-USDT") then symbol ++ "-USDT" else symbol
  end.

Definition longSynonyms : list string :=
  ["buy"; "long"; "bullish"; "comprar"; "largo"; "alcista"].

Definition shortSynonyms : list string :=
  ["sell"; "short"; "bearish"; "vender"; "corto"; "bajista"].

(** normalizeSide converts various formats to LONG/SHORT *)
Definition normalizeSide (side : string) : types.Side :=
  let side := ToLower (TrimSpace side) in
  if existsb (String.eqb side) longSynonyms then types.SideLong
  else if existsb (String.eqb side) shortSynonyms then types.SideShort
  else types.SideLong.

Definition intentMap : gmap string types.Intent :=
  list_to_map
    [ ("open_position", types.IntentOpenPosition);
      ("close_position", types.IntentClosePosition);
      ("view_positions", types.IntentViewPositions);
      ("view_orders", types.IntentViewOrders);
      ("cancel_orders", types.IntentCancelOrders);
      ("check_balance", types.IntentCheckBalance);
      ("break_even", types.IntentBreakEven);
      ("trailing_stop", types.IntentTrailingStop) ].

(** mapWitIntent maps Wit.ai intent names to our Intent enum *)
Definition mapWitIntent (witIntent : string) : types.Intent :=
  match intentMap !! witIntent with
  | Some mapped => mapped
  | None => types.IntentUnknown
  end.

(** The zero value of [NormalizedCommand] with the two fields of the
    composite literal set. *)
Definition newCommand (rawInput : string) (now : types.Time) : NormalizedCommand :=
  mkNormalizedCommand "" 0%float "" None None None None None [] None None None None
    false [] [] rawInput "" now.

Section Transformer.

(** [strconv.ParseFloat(s, 64)]: [Some x] when it returns [x] with a nil
    error, [None] when the error is not nil.  It belongs to Go's standard
    library; the transformer is read for any such function. *)
Variable ParseFloat : string -> option float.

(** One turn of the loop of [parseTPLevels]. *)
Definition parseTPLevels_step (levels : list TPLevel) (part : string) : list TPLevel :=
  let pricePct := Split (TrimSpace part) ":" in
  if negb (length pricePct =? 2)%nat then levels (* continue *)
  else
    match ParseFloat (nth 0 pricePct ""), ParseFloat (nth 1 pricePct "") with
    | Some price, Some pct => levels ++ [mkTPLevel price pct]
    | _, _ => levels
    end.

(** parseTPLevels parses "3000:30,3100:70" format *)
Definition parseTPLevels (input : string) : list TPLevel :=
  let parts := Split input "," in
  fold_left parseTPLevels_step parts [].

Definition is_any (name : string) (names : list string) : bool :=
  existsb (String.eqb name) names.

(** The body of [for entityName, entityValues := range resp.Entities]. *)
Definition extractEntity (cmd : NormalizedCommand)
    (entry : string * list WitAIEntity.t) : NormalizedCommand :=
  let (entityName, entityValues) := entry in
  match entityValues with
  | [] => cmd (* continue *)
  | entity :: _ =>
      let value := WitAIEntity.Value entity in
      let parsed (assign : option float -> NormalizedCommand -> NormalizedCommand) :=
        match ParseFloat value with
        | Some x => assign (Some x) cmd
        | None => cmd
        end in
      if String.eqb entityName "symbol" then set_Symbol (normalizeSymbol value) cmd
      else if String.eqb entityName "side" then set_Side (Some (normalizeSide value)) cmd
      else if is_any entityName ["entry_price"; "price:entry"] then parsed set_EntryPrice
      else if is_any entityName ["stop_loss"; "price:stop_loss"] then parsed set_StopLoss
      else if is_any entityName ["take_profit"; "price:take_profit"] then parsed set_TakeProfit
      else if String.eqb entityName "risk" then parsed set_RiskPercent
      else if String.eqb entityName "trigger_price" then parsed set_TriggerPrice
      else if String.eqb entityName "callback_rate" then parsed set_CallbackRate
      else if String.eqb entityName "levels" then set_TPLevels (parseTPLevels value) cmd
      else cmd
  end.

(** transformWitResponse converts Wit.ai response to NormalizedCommand;
    [now] is the value of [time.Now()]. *)
Definition transformWitResponse (resp : WitAIResponse) (rawInput : string)
    (now : types.Time) : NormalizedCommand :=
  let cmd := newCommand rawInput now in
  (* Extract intent *)
  let cmd :=
    match Intents resp with
    | first :: _ =>
        let cmd := set_Intent (mapWitIntent (WitAIIntent.Name first)) cmd in
        set_Confidence (WitAIIntent.Confidence first) cmd
    | [] => cmd
    end in
  (* Extract entities *)
  fold_left extractEntity (Entities resp) cmd.

End Transformer.

(** A reading of the strings of decimal digits whose value is below 2^53
    ("46000", "50"), on which it returns what [strconv.ParseFloat] returns;
    every other string is rejected.  It serves to run the transformer on
    concrete inputs. *)
Fixpoint digits_value (s : string) (acc : Z) : option Z :=
  match s with
  | EmptyString => Some acc
  | String c r =>
      if byte_in 48 57 c
      then digits_value r (10 * acc + Z.of_N (N_of_ascii c - 48))%Z
      else None
  end.

Definition ParseFloat_digits (s : string) : option float :=
  match s with
  | EmptyString => None
  | _ =>
      match digits_value s 0 with
      | Some n => if (n <? 2 ^ 53)%Z then Some (of_uint63 (Uint63.of_Z n)) else None
      | None => None
      end
  end.

End witai.

(** ** The validation rules, as the specification words them

    These definitions follow the text of the specification (section 4.6);
    the theorems below compare [validators.ValidateCommand], which follows
    the source, with them. *)

Module Rules.

Import GoFloat validators.

(** The intents of the enumeration that have a branch of their own, and
    every other value of the string type. *)
Inductive intent_class : Type :=
| OpenPosition | ClosePosition | TrailingStop | BreakEven
| CancelOrders | ViewPositions | ViewOrders | CheckBalance
| Unrecognized.

Definition handled_intents : list (types.Intent * intent_class) :=
  [ (types.IntentOpenPosition, OpenPosition);
    (types.IntentClosePosition, ClosePosition);
    (types.IntentTrailingStop, TrailingStop);
    (types.IntentBreakEven, BreakEven);
    (types.IntentCancelOrders, CancelOrders);
    (types.IntentViewPositions, ViewPositions);
    (types.IntentViewOrders, ViewOrders);
    (types.IntentCheckBalance, CheckBalance) ].

(** The values of the enumeration of the data model. *)
Definition intent_enumeration : list types.Intent :=
  [ types.IntentOpenPosition; types.IntentClosePosition; types.IntentViewPositions;
    types.IntentViewOrders; types.IntentCancelOrders; types.IntentCheckBalance;
    types.IntentBreakEven; types.IntentTrailingStop; types.IntentUnknown ].

Fixpoint assoc (i : types.Intent) (table : list (types.Intent * intent_class))
    : intent_class :=
  match table with
  | [] => Unrecognized
  | (name, k) :: rest => if String.eqb i name then k else assoc i rest
  end.

Definition classify (i : types.Intent) : intent_class := assoc i handled_intents.

(** The names of the required fields that are absent, in the order of the
    checks: each check is a field name and whether the field is absent. *)
Definition absent_fields (checks : list (string * bool)) : list string :=
  flat_map (fun check : string * bool => if snd check then [fst check] else []) checks.

Definition open_position_required (c : NormalizedCommand) : list (string * bool) :=
  [ ("symbol", String.eqb (Symbol c) "");
    ("side", is_nil (Side c));
    ("entry_price", is_nil (EntryPrice c));
    ("stop_loss", is_nil (StopLoss c));
    ("risk_percent", is_nil (RiskPercent c)) ].

Definition trailing_stop_required (c : NormalizedCommand) : list (string * bool) :=
  [ ("symbol", String.eqb (Symbol c) "");
    ("trigger_price", is_nil (TriggerPrice c));
    ("callback_rate or distance", is_nil (CallbackRate c) && is_nil (Distance c)) ].

Definition symbol_required (c : NormalizedCommand) : list (string * bool) :=
  [ ("symbol", String.eqb (Symbol c) "") ].

(** [risk] lies in the interval (0,100]. *)
Definition in_risk_range (risk : float) : bool := lt 0 risk && le risk 100.

Definition risk_message : string := "risk_percent must be between 0 and 100".
Definition long_stop_message : string := "stop_loss must be below entry_price for LONG".
Definition short_stop_message : string := "stop_loss must be above entry_price for SHORT".

Definition risk_error (c : NormalizedCommand) : list string :=
  match RiskPercent c with
  | Some risk => if le risk 0 || gt risk 100 then [risk_message] else []
  | None => []
  end.

Definition stop_error (c : NormalizedCommand) : list string :=
  match Side c, EntryPrice c, StopLoss c with
  | Some side, Some entry, Some stop =>
      (if String.eqb side "LONG" && ge stop entry then [long_stop_message] else [])
      ++ (if String.eqb side "SHORT" && le stop entry then [short_stop_message] else [])
  | _, _, _ => []
  end.

Definition tp_error (c : NormalizedCommand) : list string :=
  match TPLevels c with
  | [] => []
  | _ :: _ =>
      let total := totalPct (TPLevels c) in
      if gt total 100
      then [("TP percentages sum to " ++ FormatFloat_f1 total ++ "%, cannot exceed 100%")%string]
      else []
  end.

Definition open_position_errors (c : NormalizedCommand) : list string :=
  risk_error c ++ stop_error c ++ tp_error c.

Definition expected_missing (c : NormalizedCommand) : list string :=
  match classify (Intent c) with
  | OpenPosition => absent_fields (open_position_required c)
  | ClosePosition | BreakEven => absent_fields (symbol_required c)
  | TrailingStop => absent_fields (trailing_stop_required c)
  | CancelOrders | ViewPositions | ViewOrders | CheckBalance => []
  | Unrecognized => []
  end.

Definition expected_errors (c : NormalizedCommand) : list string :=
  match classify (Intent c) with
  | OpenPosition => open_position_errors c
  | Unrecognized => [("unknown intent: " ++ Intent c)%string]
  | _ => []
  end.

Definition is_empty {A} (l : list A) : bool :=
  match l with [] => true | _ :: _ => false end.

(** The command [c] with the three fields the validator computes. *)
Definition with_outcome (v : bool) (m e : list string) (c : NormalizedCommand)
    : NormalizedCommand :=
  set_Valid v (set_Missing m (set_Errors e c)).

(** [c] is [c0] after the entries [ms] and [es] were appended to its
    [Missing] and [Errors], invalid as soon as there is one: what a sequence
    of the validator's statements makes of [c0]. *)
Definition extends (c0 c : NormalizedCommand) (ms es : list string) : Prop :=
  c = with_outcome (Valid c0 && is_empty ms && is_empty es)
        (Missing c0 ++ ms) (Errors c0 ++ es) c0.

End Rules.

(** ** The take-profit parser, as the specification words it *)

Module TPRules.

Import GoStrings.

(** [strings.Join(parts, sep)] for a separator of one byte: the text whose
    comma-separated tokens are [parts]. *)
Fixpoint Join (parts : list string) (sep : ascii) : string :=
  match parts with
  | [] => EmptyString
  | [p] => p
  | p :: rest => (p ++ String sep (Join rest sep))%string
  end.

Fixpoint has_byte (c : ascii) (s : string) : bool :=
  match s with
  | EmptyString => false
  | String c' r => Ascii.eqb c' c || has_byte c r
  end.

Section Token.
Variable ParseFloat : string -> option float.

(** A token is kept when, trimmed and split on the colon, it yields two
    halves that both parse; it then gives the level of the two numbers. *)
Definition tokenLevel (token : string) : option TPLevel :=
  match Split (TrimSpace token) ":" with
  | [price; pct] =>
      match ParseFloat price, ParseFloat pct with
      | Some p, Some q => Some (mkTPLevel p q)
      | _, _ => None
      end
  | _ => None
  end.
End Token.

End TPRules.

(** ** Commands and inputs of the specification's examples *)

Module Examples.

Definition blank (i : types.Intent) : NormalizedCommand :=
  mkNormalizedCommand i 0%float "" None None None None None [] None None None None
    false [] [] "" "" 0%Z.

Definition open_ok : NormalizedCommand :=
  set_RiskPercent (Some 2%float)
    (set_StopLoss (Some 44500%float)
      (set_EntryPrice (Some 45000%float)
        (set_Side (Some types.SideLong)
          (set_Symbol "BTC-USDT" (blank types.IntentOpenPosition))))).

(** A LONG with [entry_price=45000], [stop_loss=46000]. *)
Definition long_stop_above : NormalizedCommand :=
  set_StopLoss (Some 46000%float) open_ok.

(** A SHORT with [entry_price=3000], [stop_loss=2900]. *)
Definition short_stop_below : NormalizedCommand :=
  set_StopLoss (Some 2900%float)
    (set_EntryPrice (Some 3000%float)
      (set_Side (Some types.SideShort) open_ok)).

(** Take-profit levels of 60% and 50%. *)
Definition tp_110 : NormalizedCommand :=
  set_TPLevels [mkTPLevel 46000 60; mkTPLevel 47000 50] open_ok.

Definition risk_zero : NormalizedCommand := set_RiskPercent (Some 0%float) open_ok.

Definition risk_hundred : NormalizedCommand := set_RiskPercent (Some 100%float) open_ok.

(** An open_position with a risk of 0 and nothing else. *)
Definition open_bare : NormalizedCommand :=
  set_RiskPercent (Some 0%float) (blank types.IntentOpenPosition).

(** A trailing stop with neither callback rate nor distance. *)
Definition trailing_bare : NormalizedCommand :=
  set_TriggerPrice (Some 45000%float)
    (set_Symbol "BTC-USDT" (blank types.IntentTrailingStop)).

Definition no_candidates : witai.WitAIResponse :=
  witai.mkWitAIResponse "do something with crypto" [] [] [].

End Examples.

(** ** witai/witai.go: the processor *)

Module processor.

Import witai.

(** [Processor]; of the HTTP client only its timeout, in seconds, is kept. *)
Record Processor : Type := mkProcessor {
  token : string;
  clientTimeout : Z
}.

(** A Go [error], by its message. *)
Definition error := string.

(** New creates a new Wit.ai NLP processor *)
Definition New (token : string) : Processor + error :=
  if String.eqb token "" then inr "wit.ai token is required"
  else inl (mkProcessor token 10).

Definition Name (p : Processor) : string := "witai".

Definition SupportedLanguages (p : Processor) : list string := ["en"; "es"].

Section ParseCommand.

(** [p.callWitAI(ctx, input)], the HTTP exchange with the provider: the
    decoded reply, or the error of the request, of the status or of the
    decoding. *)
Variable callWitAI : Processor -> string -> WitAIResponse + error.

Variable ParseFloat : string -> option float.

(** ParseCommand processes natural language input and returns normalized
    command; [now] is the value of [time.Now()] in the transformer. *)
Definition ParseCommand (p : Processor) (input : string) (now : types.Time)
    : NormalizedCommand + error :=
  match callWitAI p input with
  | inr err => inr ("wit.ai call failed: " ++ err)%string
  | inl witResp =>
      (* Transform Wit.ai response to NormalizedCommand *)
      let cmd := transformWitResponse ParseFloat witResp input now in
      (* Validate the command *)
      let cmd := validators.ValidateCommand cmd in
      inl cmd
  end.

End ParseCommand.

End processor.

(** ** Text that is plain ASCII

    On such text the model of [strings.ToUpper] and [strings.ToLower] is
    exact. *)

Module AsciiText.

Fixpoint is_ascii (s : string) : bool :=
  match s with
  | EmptyString => true
  | String c r => (N_of_ascii c <? 128)%N && is_ascii r
  end.

End AsciiText.

(** ** What the transformer recognises *)

Module TransformRules.

(** The intent names of the provider that [witai.mapWitIntent] knows. *)
Definition provider_labels : list string :=
  [ "open_position"; "close_position"; "view_positions"; "view_orders";
    "cancel_orders"; "check_balance"; "break_even"; "trailing_stop" ].

(** The entity names with a [case] in [witai.transformWitResponse]. *)
Definition entity_names : list string :=
  [ "symbol"; "side"; "entry_price"; "price:entry"; "stop_loss"; "price:stop_loss";
    "take_profit"; "price:take_profit"; "risk"; "trigger_price"; "callback_rate";
    "levels" ].

(** The entries of [Entities] with the name [name] and at least one value. *)
Definition has_entity (name : string) (entries : list (string * list witai.WitAIEntity.t))
    : bool :=
  existsb (fun entry : string * list witai.WitAIEntity.t =>
             String.eqb (fst entry) name && negb (Rules.is_empty (snd entry)))
          entries.

(** The number of occurrences of the byte [c] in [s]. *)
Fixpoint count_byte (c : ascii) (s : string) : nat :=
  match s with
  | EmptyString => 0
  | String c' r => (if Ascii.eqb c' c then 1 else 0) + count_byte c r
  end.

(** The entries that [witai.transformWitResponse] reads, each with the one
    value it reads: an entry without value or with a name that has no
    [case] is left out, and of the values only the first is kept. *)
Definition first_values (entries : list (string * list witai.WitAIEntity.t))
    : list (string * list witai.WitAIEntity.t) :=
  omap (fun entry : string * list witai.WitAIEntity.t =>
          match snd entry with
          | value :: _ =>
              if existsb (String.eqb (fst entry)) entity_names
              then Some (fst entry, [value])
              else None
          | [] => None
          end)
       entries.

(** The field that the [case] of an entity name assigns. *)
Inductive slot : Type :=
| SymbolSlot | SideSlot | EntryPriceSlot | StopLossSlot | TakeProfitSlot
| RiskPercentSlot | TriggerPriceSlot | CallbackRateSlot | TPLevelsSlot.

Definition entity_slot (name : string) : option slot :=
  if String.eqb name "symbol" then Some SymbolSlot
  else if String.eqb name "side" then Some SideSlot
  else if String.eqb name "entry_price" || String.eqb name "price:entry"
  then Some EntryPriceSlot
  else if String.eqb name "stop_loss" || String.eqb name "price:stop_loss"
  then Some StopLossSlot
  else if String.eqb name "take_profit" || String.eqb name "price:take_profit"
  then Some TakeProfitSlot
  else if String.eqb name "risk" then Some RiskPercentSlot
  else if String.eqb name "trigger_price" then Some TriggerPriceSlot
  else if String.eqb name "callback_rate" then Some CallbackRateSlot
  else if String.eqb name "levels" then Some TPLevelsSlot
  else None.

(** The field an entry of [Entities] assigns, if it has a value and a
    known name. *)
Definition entry_slot (entry : string * list witai.WitAIEntity.t) : option slot :=
  match snd entry with
  | [] => None
  | _ :: _ => entity_slot (fst entry)
  end.

(** Two entries assign the same field. *)
Definition clash (e1 e2 : string * list witai.WitAIEntity.t) : Prop :=
  exists s, entry_slot e1 = Some s /\ entry_slot e2 = Some s.

(** No two entries assign the same field. *)
Fixpoint distinct_slots (entries : list (string * list witai.WitAIEntity.t)) : Prop :=
  match entries with
  | [] => True
  | entry :: rest =>
      (forall other, In other rest -> ~ clash entry other) /\ distinct_slots rest
  end.

(** The assignment of the [case] of a field, from the text of the value. *)
Definition assign (ParseFloat : string -> option float) (s : slot) (value : string)
    (cmd : NormalizedCommand) : NormalizedCommand :=
  let parsed (set : option float -> NormalizedCommand -> NormalizedCommand) :=
    match ParseFloat value with
    | Some x => set (Some x) cmd
    | None => cmd
    end in
  match s with
  | SymbolSlot => set_Symbol (witai.normalizeSymbol value) cmd
  | SideSlot => set_Side (Some (witai.normalizeSide value)) cmd
  | EntryPriceSlot => parsed set_EntryPrice
  | StopLossSlot => parsed set_StopLoss
  | TakeProfitSlot => parsed set_TakeProfit
  | RiskPercentSlot => parsed set_RiskPercent
  | TriggerPriceSlot => parsed set_TriggerPrice
  | CallbackRateSlot => parsed set_CallbackRate
  | TPLevelsSlot => set_TPLevels (witai.parseTPLevels ParseFloat value) cmd
  end.

(** The fields that no [case] of the transformer assigns are the same in
    [c] and [c']. *)
Definition same_frame (c c' : NormalizedCommand) : Prop :=
  Intent c' = Intent c /\ Confidence c' = Confidence c
  /\ RRRatio c' = RRRatio c /\ Distance c' = Distance c
  /\ Valid c' = Valid c /\ Missing c' = Missing c /\ Errors c' = Errors c
  /\ RawInput c' = RawInput c /\ Language c' = Language c
  /\ Timestamp c' = Timestamp c.

(** The reply [resp] with other entities. *)
Definition with_entities (entries : list (string * list witai.WitAIEntity.t))
    (resp : witai.WitAIResponse) : witai.WitAIResponse :=
  witai.mkWitAIResponse (witai.Text resp) (witai.Intents resp) entries (witai.Traits resp).

End TransformRules.

(** ** Replies of the provider, for examples *)

Module Replies.

Import witai.

Definition entity (value : string) : WitAIEntity.t :=
  WitAIEntity.mk "" "" "" 0 0 "" value 1%float "".

(** "close ETH position" *)
Definition close_eth : WitAIResponse :=
  mkWitAIResponse "close ETH position"
    [WitAIIntent.mk "" "close_position" 0.5%float]
    [("symbol", [entity "ethereum"])] [].

(** A trailing stop with a symbol and a trigger price, without callback rate. *)
Definition trailing_no_callback : WitAIResponse :=
  mkWitAIResponse "set trailing stop on BTC at 46000"
    [WitAIIntent.mk "" "trailing_stop" 0.5%float]
    [("symbol", [entity "BTC"]); ("trigger_price", [entity "46000"])] [].

(** A symbol and a risk, in the two orders of visit. *)
Definition symbol_then_risk : WitAIResponse :=
  mkWitAIResponse "" [WitAIIntent.mk "" "open_position" 0.5%float]
    [("symbol", [entity "btc"]); ("risk", [entity "2"])] [].

Definition risk_then_symbol : list (string * list WitAIEntity.t) :=
  [("risk", [entity "2"]); ("symbol", [entity "btc"])].

(** A provider that answers every input with the same reply. *)
Definition always (resp : WitAIResponse)
    : processor.Processor -> string -> WitAIResponse + processor.error :=
  fun _ _ => inl resp.

Definition some_processor : processor.Processor := processor.mkProcessor "token" 10.

End Replies.

(** ** The sum of the take-profit percentages, as the specification words it *)

Module TPSum.

(** The percentages of the levels summed up to the last one: nothing for no
    level, and for a last level the sum of the earlier ones plus its
    percentage.  The levels are given last first. *)
Fixpoint sum_up_to_last (levels_from_last : list TPLevel) : float :=
  match levels_from_last with
  | [] => 0%float
  | last :: earlier => (sum_up_to_last earlier + Percentage last)%float
  end.

(** The sum of the percentages of all the levels, added in their order. *)
Definition sum_percentages (levels : list TPLevel) : float :=
  sum_up_to_last (rev levels).

End TPSum.

(** ** Commands with take-profit levels, for examples *)

Module TPExamples.

(** Three levels of 30%, 40% and 30%: 100% in all. *)
Definition tp_100 : NormalizedCommand :=
  set_TPLevels [mkTPLevel 46000 30; mkTPLevel 47000 40; mkTPLevel 48000 30]
    Examples.open_ok.

(** Three levels of 50%, 30% and 30%: 110% in all, the first two within 100%. *)
Definition tp_three_110 : NormalizedCommand :=
  set_TPLevels [mkTPLevel 46000 50; mkTPLevel 47000 30; mkTPLevel 48000 30]
    Examples.open_ok.

End TPExamples.

(** * Properties *)

(** ** Order of [float64] *)

Module GoFloatFacts.

Import GoFloat.

Lemma SFcompare_swap (x y : spec_float) :
  SFcompare y x = option_map CompOpp (SFcompare x y).
Proof.
  destruct x as [sx | sx | | sx mx ex], y as [sy | sy | | sy my ey]; simpl;
    try destruct sx; try destruct sy; try reflexivity.
  - rewrite (Z.compare_antisym ex ey).
    destruct (ex ?= ey)%Z; simpl; try reflexivity.
    rewrite (Pos.compare_cont_antisym mx my Eq). reflexivity.
  - rewrite (Z.compare_antisym ex ey).
    destruct (ex ?= ey)%Z; simpl; try reflexivity.
    rewrite (Pos.compare_cont_antisym mx my Eq). reflexivity.
Qed.

Lemma not_nan_spec (x : float) : is_nan x = false -> Prim2SF x <> S754_nan.
Proof.
  unfold is_nan. rewrite FloatAxioms.eqb_spec. intros H E. rewrite E in H. discriminate H.
Qed.

Lemma SFcompare_defined (x y : spec_float) :
  x <> S754_nan -> y <> S754_nan -> exists o, SFcompare x y = Some o.
Proof.
  destruct x, y; simpl; intros Hx Hy; try congruence; eauto.
Qed.

Lemma SFcompare_refl (x : spec_float) : x <> S754_nan -> SFcompare x x = Some Eq.
Proof.
  destruct x as [sx | sx | | sx mx ex]; simpl; intros Hx; try congruence.
  - now destruct sx.
  - rewrite Z.compare_refl, Pos.compare_cont_refl. now destruct sx.
Qed.

(** A number is at most itself (and at least itself). *)
Lemma le_refl (x : float) : is_nan x = false -> le x x = true.
Proof.
  intros Hx%not_nan_spec. unfold le. rewrite FloatAxioms.leb_spec. unfold SFleb.
  now rewrite (SFcompare_refl _ Hx).
Qed.

(** [x <= y] excludes [x > y]. *)
Lemma le_not_gt (x y : float) : le x y = true -> gt x y = false.
Proof.
  unfold le, gt. rewrite FloatAxioms.leb_spec, FloatAxioms.ltb_spec. unfold SFleb, SFltb.
  rewrite (SFcompare_swap (Prim2SF x) (Prim2SF y)).
  destruct (SFcompare (Prim2SF x) (Prim2SF y)) as [[ | | ] | ]; simpl; congruence.
Qed.

(** On numbers (not NaN), [x > y] is the negation of [x <= y]. *)
Lemma gt_negb_le (x y : float) :
  is_nan x = false -> is_nan y = false -> gt x y = negb (le x y).
Proof.
  intros Hx%not_nan_spec Hy%not_nan_spec.
  unfold le, gt. rewrite FloatAxioms.leb_spec, FloatAxioms.ltb_spec. unfold SFleb, SFltb.
  rewrite (SFcompare_swap (Prim2SF x) (Prim2SF y)).
  destruct (SFcompare_defined _ _ Hx Hy) as [o ->].
  destruct o; reflexivity.
Qed.

Lemma le_negb_gt (x y : float) :
  is_nan x = false -> is_nan y = false -> le x y = negb (gt x y).
Proof.
  intros Hx Hy. rewrite (gt_negb_le x y Hx Hy). now rewrite negb_involutive.
Qed.

(** Outside (0,100], for a number: at most 0 or above 100. *)
Lemma out_of_range_spec (risk : float) :
  is_nan risk = false ->
  le risk 0 || gt risk 100 = negb (lt 0 risk && le risk 100).
Proof.
  intros Hr.
  change (lt 0 risk) with (gt risk 0).
  rewrite (gt_negb_le risk 0 Hr eq_refl), (gt_negb_le risk 100 Hr eq_refl).
  destruct (le risk 0), (le risk 100); reflexivity.
Qed.

End GoFloatFacts.

(** ** The validator computes the outcome the rules describe *)

Module ValidatorFacts.

Import GoFloat validators Rules.

Local Opaque String.eqb.

Lemma with_outcome_twice v m e v' m' e' c :
  with_outcome v m e (with_outcome v' m' e' c) = with_outcome v m e c.
Proof. reflexivity. Qed.

Lemma is_empty_app {A} (l1 l2 : list A) :
  is_empty (l1 ++ l2) = is_empty l1 && is_empty l2.
Proof. destruct l1; reflexivity. Qed.

Lemma extends_start (c : NormalizedCommand) : extends c c [] [].
Proof.
  unfold extends. destruct c; cbn. now rewrite !app_nil_r, !andb_true_r.
Qed.

Lemma extends_eq c0 c ms es ms' es' :
  extends c0 c ms es -> ms = ms' -> es = es' -> extends c0 c ms' es'.
Proof. now intros H <- <-. Qed.

Lemma extends_reportMissing c0 c ms es name :
  extends c0 c ms es -> extends c0 (reportMissing name c) (ms ++ [name]) es.
Proof.
  unfold extends. intros ->. destruct c0; cbn.
  now rewrite is_empty_app, !andb_false_r, app_assoc.
Qed.

Lemma extends_reportError c0 c ms es msg :
  extends c0 c ms es -> extends c0 (reportError msg c) ms (es ++ [msg]).
Proof.
  unfold extends. intros ->. destruct c0; cbn.
  now rewrite is_empty_app, !andb_false_r, app_assoc.
Qed.

(** [if b { report a missing field }] *)
Lemma extends_missing_if c0 c ms es (b : bool) name :
  extends c0 c ms es ->
  extends c0 (if b then reportMissing name c else c) (ms ++ if b then [name] else []) es.
Proof.
  intros H. destruct b; [now apply extends_reportMissing | now rewrite app_nil_r].
Qed.

(** [if b { report an error }] *)
Lemma extends_error_if c0 c ms es (b : bool) msg :
  extends c0 c ms es ->
  extends c0 (if b then reportError msg c else c) ms (es ++ if b then [msg] else []).
Proof.
  intros H. destruct b; [now apply extends_reportError | now rewrite app_nil_r].
Qed.

(** A statement, then the statements that follow it on its result. *)
Lemma extends_let c0 (v : NormalizedCommand)
    (rest : NormalizedCommand -> NormalizedCommand) ms1 es1 ms es :
  extends c0 v ms1 es1 ->
  (forall x, extends c0 x ms1 es1 -> extends c0 (rest x) ms es) ->
  extends c0 (let cmd := v in rest cmd) ms es.
Proof. intros Hv Hrest. exact (Hrest v Hv). Qed.

(** The fields the validator reads are left as they were. *)
Lemma extends_inputs c0 c ms es :
  extends c0 c ms es ->
  Intent c = Intent c0 /\ Symbol c = Symbol c0 /\ Side c = Side c0
  /\ EntryPrice c = EntryPrice c0 /\ StopLoss c = StopLoss c0
  /\ RiskPercent c = RiskPercent c0 /\ TPLevels c = TPLevels c0
  /\ TriggerPrice c = TriggerPrice c0 /\ CallbackRate c = CallbackRate c0
  /\ Distance c = Distance c0.
Proof. intros ->. repeat split. Qed.

(** Read the conditions of the goal on the fields of the initial command. *)
Ltac read_inputs H :=
  let Hi := fresh in
  pose proof (extends_inputs _ _ _ _ H) as Hi;
  destruct Hi as (Hi1 & Hi2 & Hi3 & Hi4 & Hi5 & Hi6 & Hi7 & Hi8 & Hi9 & Hi10);
  rewrite ?Hi1, ?Hi2, ?Hi3, ?Hi4, ?Hi5, ?Hi6, ?Hi7, ?Hi8, ?Hi9, ?Hi10;
  clear Hi1 Hi2 Hi3 Hi4 Hi5 Hi6 Hi7 Hi8 Hi9 Hi10.

(** Split the goal at its first statement [cmd := v]; the bound command is
    never substituted in the statements that follow. *)
Ltac bind_statement :=
  lazymatch goal with
  | |- extends ?c0 (let cmd := ?v in @?rest cmd) ?ms ?es =>
      refine (extends_let c0 v rest _ _ ms es _ _)
  end.

Ltac next_statement H rule :=
  bind_statement; [rule; exact H | clear H; intros ? H; read_inputs H].

Ltac missing_statement H := next_statement H ltac:(apply extends_missing_if).
Ltac error_statement H := next_statement H ltac:(apply extends_error_if).
Ltac skip_statement H := next_statement H idtac.

Ltac last_statement H rule :=
  eapply extends_eq; [rule; exact H | | ];
  rewrite <- ?app_assoc, ?app_nil_r; reflexivity.

Lemma validateOpenPosition_extends c0 c ms es :
  extends c0 c ms es ->
  extends c0 (validateOpenPosition c)
    (ms ++ absent_fields (open_position_required c0))
    (es ++ open_position_errors c0).
Proof.
  intros H.
  unfold absent_fields, open_position_required, open_position_errors,
    risk_error, stop_error, tp_error, tp_sum_message.
  cbn [flat_map fst snd].
  cbv beta delta [validateOpenPosition].
  read_inputs H.
  (* Required: symbol, side, entry price, stop loss, risk *)
  do 5 missing_statement H.
  (* Validate ranges *)
  destruct (RiskPercent c0) as [risk|]; [error_statement H | skip_statement H].
  (* Validate price logic *)
  all: destruct (Side c0) as [side|], (EntryPrice c0) as [entry|],
         (StopLoss c0) as [stop|];
       try skip_statement H.
  all: try (bind_statement;
            [ bind_statement;
              [ apply extends_error_if; exact H
              | clear H; intros ? H; apply extends_error_if; exact H ]
            | clear H; intros ? H; read_inputs H ]).
  (* Validate TP levels *)
  all: destruct (TPLevels c0) as [|tp tps]; cbn [length Nat.ltb Nat.leb]; cbv zeta.
  all: first [ last_statement H ltac:(apply extends_error_if)
             | last_statement H idtac ].
Qed.

Lemma validateTrailingStop_extends c0 c ms es :
  extends c0 c ms es ->
  extends c0 (validateTrailingStop c)
    (ms ++ absent_fields (trailing_stop_required c0)) es.
Proof.
  intros H.
  unfold absent_fields, trailing_stop_required. cbn [flat_map fst snd].
  cbv beta delta [validateTrailingStop].
  read_inputs H.
  do 2 missing_statement H.
  last_statement H ltac:(apply extends_missing_if).
Qed.

Lemma validateClosePosition_extends c0 c ms es :
  extends c0 c ms es ->
  extends c0 (validateClosePosition c)
    (ms ++ absent_fields (symbol_required c0)) es.
Proof.
  intros H.
  unfold absent_fields, symbol_required. cbn [flat_map fst snd].
  cbv beta delta [validateClosePosition].
  read_inputs H.
  last_statement H ltac:(apply extends_missing_if).
Qed.

Lemma validateBreakEven_extends c0 c ms es :
  extends c0 c ms es ->
  extends c0 (validateBreakEven c)
    (ms ++ absent_fields (symbol_required c0)) es.
Proof. exact (validateClosePosition_extends c0 c ms es). Qed.

(** From the state that [ValidateCommand] sets up before the [switch]. *)
Lemma extends_reset c0 c ms es :
  extends c0 c ms es ->
  c0 = with_outcome true [] [] c0 ->
  c = with_outcome (is_empty ms && is_empty es) ms es c0.
Proof. unfold extends. intros -> Hreset. rewrite Hreset. reflexivity. Qed.

(** The whole validator: the three fields it writes are the ones the rules
    give for the intent, and nothing else changes. *)
Lemma ValidateCommand_outcome (c : NormalizedCommand) :
  ValidateCommand c =
    with_outcome
      (is_empty (expected_missing c) && is_empty (expected_errors c))
      (expected_missing c) (expected_errors c) c.
Proof.
  unfold expected_missing, expected_errors, classify, handled_intents, assoc.
  cbv beta zeta delta [ValidateCommand no_validation].
  set (c2 := set_Errors [] (set_Missing [] (set_Valid true c))).
  assert (Hc2 : c2 = with_outcome true [] [] c) by reflexivity.
  assert (Hin : forall v m e, with_outcome v m e c2 = with_outcome v m e c)
    by (intros; rewrite Hc2; reflexivity).
  assert (Hfields :
    absent_fields (open_position_required c2) = absent_fields (open_position_required c)
    /\ open_position_errors c2 = open_position_errors c
    /\ absent_fields (symbol_required c2) = absent_fields (symbol_required c)
    /\ absent_fields (trailing_stop_required c2) = absent_fields (trailing_stop_required c))
    by (rewrite Hc2; repeat split).
  destruct Hfields as (Hf1 & Hf2 & Hf3 & Hf4).
  assert (Hstart : extends c2 c2 [] []) by apply extends_start.
  assert (Hreset : c2 = with_outcome true [] [] c2) by (rewrite Hc2; reflexivity).
  change (Intent c2) with (Intent c).
  destruct (String.eqb (Intent c) types.IntentOpenPosition).
  { rewrite (extends_reset _ _ _ _ (validateOpenPosition_extends _ _ _ _ Hstart) Hreset).
    cbn [app]. now rewrite Hf1, Hf2, Hin. }
  destruct (String.eqb (Intent c) types.IntentClosePosition).
  { rewrite (extends_reset _ _ _ _ (validateClosePosition_extends _ _ _ _ Hstart) Hreset).
    cbn [app]. now rewrite Hf3, Hin. }
  destruct (String.eqb (Intent c) types.IntentTrailingStop).
  { rewrite (extends_reset _ _ _ _ (validateTrailingStop_extends _ _ _ _ Hstart) Hreset).
    cbn [app]. now rewrite Hf4, Hin. }
  destruct (String.eqb (Intent c) types.IntentBreakEven).
  { rewrite (extends_reset _ _ _ _ (validateBreakEven_extends _ _ _ _ Hstart) Hreset).
    cbn [app]. now rewrite Hf3, Hin. }
  cbn [orb].
  destruct (String.eqb (Intent c) types.IntentCancelOrders); [exact Hc2|].
  destruct (String.eqb (Intent c) types.IntentViewPositions); [exact Hc2|].
  destruct (String.eqb (Intent c) types.IntentViewOrders); [exact Hc2|].
  destruct (String.eqb (Intent c) types.IntentCheckBalance); [exact Hc2|].
  rewrite Hc2. reflexivity.
Qed.

(** The rules read none of the three fields the validator writes. *)
Lemma expected_with_outcome v m e c :
  expected_missing (with_outcome v m e c) = expected_missing c
  /\ expected_errors (with_outcome v m e c) = expected_errors c.
Proof. split; reflexivity. Qed.

Lemma Valid_ValidateCommand c :
  Valid (ValidateCommand c) = is_empty (expected_missing c) && is_empty (expected_errors c).
Proof. now rewrite ValidateCommand_outcome. Qed.

Lemma Missing_ValidateCommand c : Missing (ValidateCommand c) = expected_missing c.
Proof. now rewrite ValidateCommand_outcome. Qed.

Lemma Errors_ValidateCommand c : Errors (ValidateCommand c) = expected_errors c.
Proof. now rewrite ValidateCommand_outcome. Qed.

Lemma classify_open (i : types.Intent) :
  i = types.IntentOpenPosition -> classify i = OpenPosition.
Proof. intros ->. reflexivity. Qed.

Lemma classify_trailing (i : types.Intent) :
  i = types.IntentTrailingStop -> classify i = TrailingStop.
Proof. intros ->. reflexivity. Qed.

Lemma open_missing c :
  Intent c = types.IntentOpenPosition ->
  Missing (ValidateCommand c) = absent_fields (open_position_required c).
Proof.
  intros H. rewrite Missing_ValidateCommand. unfold expected_missing.
  now rewrite (classify_open _ H).
Qed.

Lemma open_errors c :
  Intent c = types.IntentOpenPosition ->
  Errors (ValidateCommand c) = open_position_errors c.
Proof.
  intros H. rewrite Errors_ValidateCommand. unfold expected_errors.
  now rewrite (classify_open _ H).
Qed.

Lemma open_valid c :
  Intent c = types.IntentOpenPosition ->
  Valid (ValidateCommand c) =
    is_empty (absent_fields (open_position_required c)) && is_empty (open_position_errors c).
Proof.
  intros H. rewrite Valid_ValidateCommand. unfold expected_missing, expected_errors.
  now rewrite (classify_open _ H).
Qed.

Lemma is_empty_false_In {A} (x : A) (l : list A) : In x l -> is_empty l = false.
Proof. destruct l; [intros [] | reflexivity]. Qed.

Lemma is_empty_true {A} (l : list A) : is_empty l = true <-> l = [].
Proof. destruct l; simpl; split; congruence. Qed.

End ValidatorFacts.

(** ** Which messages each check can produce *)

Module ErrorFacts.

Import GoFloat validators Rules.

Lemma In_risk_error c m :
  In m (risk_error c) <->
  m = risk_message /\ exists risk, RiskPercent c = Some risk /\ le risk 0 || gt risk 100 = true.
Proof.
  unfold risk_error. destruct (RiskPercent c) as [risk|].
  - destruct (le risk 0 || gt risk 100) eqn:E; simpl.
    + split; [intros [<- | []]; eauto | intros [-> _]; now left].
    + split; [intros [] | intros (_ & r & [= <-] & Hr); congruence].
  - simpl. split; [intros [] | intros (_ & r & [=] & _)].
Qed.

Lemma In_stop_error c m :
  In m (stop_error c) <->
  exists side entry stop,
    Side c = Some side /\ EntryPrice c = Some entry /\ StopLoss c = Some stop /\
    ((m = long_stop_message /\ side = types.SideLong /\ ge stop entry = true) \/
     (m = short_stop_message /\ side = types.SideShort /\ le stop entry = true)).
Proof.
  unfold stop_error.
  destruct (Side c) as [side|], (EntryPrice c) as [entry|], (StopLoss c) as [stop|];
    try (split; [intros [] | intros (s & e & st & H1 & H2 & H3 & _); congruence]).
  rewrite in_app_iff. split.
  - intros [Hm | Hm]; exists side, entry, stop; repeat split.
    + destruct (String.eqb side "LONG") eqn:Es; [|destruct Hm].
      destruct (ge stop entry) eqn:Eg; [|destruct Hm].
      destruct Hm as [<- | []]. left. apply String.eqb_eq in Es. auto.
    + destruct (String.eqb side "SHORT") eqn:Es; [|destruct Hm].
      destruct (le stop entry) eqn:Eg; [|destruct Hm].
      destruct Hm as [<- | []]. right. apply String.eqb_eq in Es. auto.
  - intros (s & e & st & [= <-] & [= <-] & [= <-] & [(-> & -> & Hc) | (-> & -> & Hc)]).
    + left. rewrite Hc. now left.
    + right. rewrite Hc. now left.
Qed.

Lemma In_tp_error c m :
  In m (tp_error c) <->
  TPLevels c <> [] /\ gt (totalPct (TPLevels c)) 100 = true /\
  m = tp_sum_message (totalPct (TPLevels c)).
Proof.
  unfold tp_error, tp_sum_message. destruct (TPLevels c) as [|tp tps] eqn:E.
  - split; [intros [] | intros (Hn & _); congruence].
  - cbv zeta. destruct (gt _ 100) eqn:Eg.
    + split; [intros [<- | []]; repeat split; congruence | intros (_ & _ & ->); now left].
    + split; [intros [] | intros (_ & [=] & _)].
Qed.

(** The message of the take-profit check is none of the fixed messages. *)
Lemma tp_sum_message_head (total : float) :
  exists rest, tp_sum_message total = String "T" rest.
Proof. unfold tp_sum_message. simpl. eauto. Qed.

Lemma In_open_position_errors c m :
  In m (open_position_errors c) <->
  In m (risk_error c) \/ In m (stop_error c) \/ In m (tp_error c).
Proof. unfold open_position_errors. now rewrite !in_app_iff. Qed.

Lemma risk_message_only c :
  In risk_message (open_position_errors c) <-> In risk_message (risk_error c).
Proof.
  rewrite In_open_position_errors. split; [|now left].
  intros [H | [H | H]]; [exact H | |].
  - apply In_stop_error in H.
    destruct H as (s & e & st & _ & _ & _ & [(Hm & _) | (Hm & _)]); discriminate Hm.
  - apply In_tp_error in H. destruct H as (_ & _ & Hm).
    destruct (tp_sum_message_head (totalPct (TPLevels c))) as [rest Hr].
    rewrite Hr in Hm. discriminate Hm.
Qed.

Lemma stop_message_only c m :
  m = long_stop_message \/ m = short_stop_message ->
  In m (open_position_errors c) <-> In m (stop_error c).
Proof.
  intros Hm. rewrite In_open_position_errors. split; [|intros; right; now left].
  intros [H | [H | H]]; [ | exact H | ].
  - apply In_risk_error in H. destruct H as [-> _]. destruct Hm as [Hm | Hm]; discriminate Hm.
  - apply In_tp_error in H. destruct H as (_ & _ & ->).
    destruct (tp_sum_message_head (totalPct (TPLevels c))) as [rest Hr].
    rewrite Hr in Hm. destruct Hm as [Hm | Hm]; discriminate Hm.
Qed.

End ErrorFacts.

(** ** The validator: claims of the specification *)

Section ValidatorClaims.

Import GoFloat GoFloatFacts validators Rules ValidatorFacts ErrorFacts.

(** C1. After [ValidateCommand], [valid] is true if and only if both
    [missing] and [errors] are empty: the validator starts from two empty
    lists and only appends, so empty means that nothing was appended. *)
Theorem valid_iff_nothing_reported (c : NormalizedCommand) :
  Valid (ValidateCommand c) = true <->
  Missing (ValidateCommand c) = [] /\ Errors (ValidateCommand c) = [].
Proof.
  rewrite Valid_ValidateCommand, Missing_ValidateCommand, Errors_ValidateCommand.
  rewrite andb_true_iff, !is_empty_true. reflexivity.
Qed.

(** C2. For an open_position command, [missing] holds one entry per absent
    field among symbol, side, entry_price, stop_loss, risk_percent, in that
    order and without stopping at the first; any absence makes the command
    invalid; and the error checks run all the same, their result being the
    one the fields alone determine. *)
Theorem open_position_missing_fields (c : NormalizedCommand)
    (Hopen : Intent c = types.IntentOpenPosition) :
  Missing (ValidateCommand c) =
    (if String.eqb (Symbol c) "" then ["symbol"] else [])
    ++ (if is_nil (Side c) then ["side"] else [])
    ++ (if is_nil (EntryPrice c) then ["entry_price"] else [])
    ++ (if is_nil (StopLoss c) then ["stop_loss"] else [])
    ++ (if is_nil (RiskPercent c) then ["risk_percent"] else [])
  /\ (Missing (ValidateCommand c) <> [] -> Valid (ValidateCommand c) = false)
  /\ Errors (ValidateCommand c) = risk_error c ++ stop_error c ++ tp_error c.
Proof.
  rewrite (open_missing c Hopen), (open_errors c Hopen), (open_valid c Hopen).
  split; [|split].
  - unfold absent_fields, open_position_required. simpl. now rewrite app_nil_r.
  - intros Hne. destruct (absent_fields (open_position_required c)); [congruence | reflexivity].
  - reflexivity.
Qed.

(** C3. For an open_position command with side, entry_price and stop_loss
    present: a LONG whose stop_loss is at or above entry_price gets the
    error "stop_loss must be below entry_price for LONG" and is invalid; a
    SHORT whose stop_loss is at or below entry_price gets "stop_loss must be
    above entry_price for SHORT" and is invalid; a stop_loss equal to the
    entry_price counts in both cases; when one of the three fields is absent
    neither error is reported. *)
Theorem open_position_stop_loss_side (c : NormalizedCommand)
    (Hopen : Intent c = types.IntentOpenPosition) :
  (forall entry stop,
      Side c = Some types.SideLong -> EntryPrice c = Some entry ->
      StopLoss c = Some stop -> ge stop entry = true ->
      In "stop_loss must be below entry_price for LONG" (Errors (ValidateCommand c))
      /\ Valid (ValidateCommand c) = false)
  /\ (forall entry stop,
      Side c = Some types.SideShort -> EntryPrice c = Some entry ->
      StopLoss c = Some stop -> le stop entry = true ->
      In "stop_loss must be above entry_price for SHORT" (Errors (ValidateCommand c))
      /\ Valid (ValidateCommand c) = false)
  /\ (forall price,
      is_nan price = false -> EntryPrice c = Some price -> StopLoss c = Some price ->
      (Side c = Some types.SideLong ->
       In "stop_loss must be below entry_price for LONG" (Errors (ValidateCommand c)))
      /\ (Side c = Some types.SideShort ->
          In "stop_loss must be above entry_price for SHORT" (Errors (ValidateCommand c))))
  /\ (Side c = None \/ EntryPrice c = None \/ StopLoss c = None ->
      ~ In "stop_loss must be below entry_price for LONG" (Errors (ValidateCommand c))
      /\ ~ In "stop_loss must be above entry_price for SHORT" (Errors (ValidateCommand c))).
Proof.
  rewrite (open_errors c Hopen), (open_valid c Hopen).
  assert (Hlong : forall entry stop,
            Side c = Some types.SideLong -> EntryPrice c = Some entry ->
            StopLoss c = Some stop -> ge stop entry = true ->
            In long_stop_message (open_position_errors c)).
  { intros entry stop Hs He Hst Hcmp.
    apply stop_message_only; [now left|]. apply In_stop_error.
    exists types.SideLong, entry, stop. repeat split; auto. }
  assert (Hshort : forall entry stop,
            Side c = Some types.SideShort -> EntryPrice c = Some entry ->
            StopLoss c = Some stop -> le stop entry = true ->
            In short_stop_message (open_position_errors c)).
  { intros entry stop Hs He Hst Hcmp.
    apply stop_message_only; [now right|]. apply In_stop_error.
    exists types.SideShort, entry, stop. repeat split; auto. }
  split; [|split; [|split]].
  - intros entry stop Hs He Hst Hcmp.
    pose proof (Hlong entry stop Hs He Hst Hcmp) as Hin.
    split; [exact Hin|].
    rewrite (is_empty_false_In _ _ Hin). apply andb_false_r.
  - intros entry stop Hs He Hst Hcmp.
    pose proof (Hshort entry stop Hs He Hst Hcmp) as Hin.
    split; [exact Hin|].
    rewrite (is_empty_false_In _ _ Hin). apply andb_false_r.
  - intros price Hnum He Hst. split; intros Hs.
    + exact (Hlong price price Hs He Hst (le_refl price Hnum)).
    + exact (Hshort price price Hs He Hst (le_refl price Hnum)).
  - intros Habsent.
    assert (Hnone : forall m, ~ In m (stop_error c)).
    { intros m (s & e & st & H1 & H2 & H3 & _)%In_stop_error.
      destruct Habsent as [E | [E | E]]; congruence. }
    split; intros Hin.
    + apply (stop_message_only c long_stop_message) in Hin; [|now left].
      exact (Hnone _ Hin).
    + apply (stop_message_only c short_stop_message) in Hin; [|now right].
      exact (Hnone _ Hin).
Qed.

(** The loop of the validator computes the sum of all the percentages. *)
Lemma totalPct_sum (levels : list TPLevel) :
  totalPct levels = TPSum.sum_percentages levels.
Proof.
  unfold totalPct, TPSum.sum_percentages.
  induction levels as [|tp levels IH] using rev_ind; [reflexivity|].
  rewrite fold_left_app, rev_app_distr. cbn [fold_left rev app TPSum.sum_up_to_last].
  now rewrite IH.
Qed.

Lemma sum_percentages_last (levels : list TPLevel) (tp : TPLevel) :
  TPSum.sum_percentages (levels ++ [tp])
  = (TPSum.sum_percentages levels + Percentage tp)%float.
Proof. unfold TPSum.sum_percentages. now rewrite rev_app_distr. Qed.

Lemma open_errors_without_tp (c : NormalizedCommand) :
  Intent c = types.IntentOpenPosition ->
  Errors (ValidateCommand (set_TPLevels [] c)) = risk_error c ++ stop_error c.
Proof.
  intros Hopen. rewrite (open_errors (set_TPLevels [] c) Hopen).
  unfold open_position_errors. change (tp_error (set_TPLevels [] c)) with (@nil string).
  now rewrite app_nil_r.
Qed.

Lemma open_valid_without_tp (c : NormalizedCommand) :
  Intent c = types.IntentOpenPosition -> tp_error c = [] ->
  Valid (ValidateCommand c) = Valid (ValidateCommand (set_TPLevels [] c)).
Proof.
  intros Hopen Hno.
  rewrite (open_valid c Hopen), (open_valid (set_TPLevels [] c) Hopen).
  unfold open_position_errors. rewrite Hno.
  change (tp_error (set_TPLevels [] c)) with (@nil string). reflexivity.
Qed.

(** C4. For an open_position command with take-profit levels, the
    percentages of all the levels are summed (from 0, each level adding its
    percentage), and exactly when the sum exceeds 100 one error is appended
    after those of the other checks, "TP percentages sum to S%, cannot
    exceed 100%" with S the sum to one decimal place (110.0 for levels of
    60% and 50%), and the command is invalid; a sum of 100 or less appends
    nothing, and an empty sequence is not checked. *)
Theorem open_position_tp_sum (c : NormalizedCommand)
    (Hopen : Intent c = types.IntentOpenPosition) :
  let total := TPSum.sum_percentages (TPLevels c) in
  let others := ValidateCommand (set_TPLevels [] c) in
  (TPSum.sum_percentages [] = 0%float
   /\ forall levels tp,
        TPSum.sum_percentages (levels ++ [tp])
        = (TPSum.sum_percentages levels + Percentage tp)%float)
  /\ (TPLevels c <> [] -> gt total 100 = true ->
     Errors (ValidateCommand c) =
       Errors others
       ++ [("TP percentages sum to " ++ FormatFloat_f1 total ++ "%, cannot exceed 100%")%string]
     /\ Valid (ValidateCommand c) = false)
  /\ (TPLevels c <> [] -> gt total 100 = false ->
     Errors (ValidateCommand c) = Errors others
     /\ Valid (ValidateCommand c) = Valid others)
  /\ (le total 100 = true ->
     Errors (ValidateCommand c) = Errors others
     /\ Valid (ValidateCommand c) = Valid others)
  /\ (TPLevels c = [] ->
     Errors (ValidateCommand c) = Errors others
     /\ Valid (ValidateCommand c) = Valid others)
  /\ (forall p1 p2, TPLevels c = [mkTPLevel p1 60; mkTPLevel p2 50] ->
     In "TP percentages sum to 110.0%, cannot exceed 100%" (Errors (ValidateCommand c))).
Proof.
  cbv zeta. rewrite <- (totalPct_sum (TPLevels c)).
  assert (Hquiet : tp_error c = [] ->
            Errors (ValidateCommand c) = Errors (ValidateCommand (set_TPLevels [] c))
            /\ Valid (ValidateCommand c) = Valid (ValidateCommand (set_TPLevels [] c))).
  { intros Hno. split; [|now apply open_valid_without_tp].
    rewrite (open_errors c Hopen), (open_errors_without_tp c Hopen).
    unfold open_position_errors. now rewrite Hno, app_nil_r. }
  assert (Hloud : TPLevels c <> [] -> gt (totalPct (TPLevels c)) 100 = true ->
            tp_error c =
              [("TP percentages sum to " ++ FormatFloat_f1 (totalPct (TPLevels c))
                ++ "%, cannot exceed 100%")%string]).
  { intros Hne Hgt. unfold tp_error. destruct (TPLevels c); [congruence|].
    cbv zeta. now rewrite Hgt. }
  split; [|split; [|split; [|split; [|split]]]].
  - split; [reflexivity | exact sum_percentages_last].
  - intros Hne Hgt. split.
    + rewrite (open_errors c Hopen), (open_errors_without_tp c Hopen).
      unfold open_position_errors. rewrite (Hloud Hne Hgt). now rewrite app_assoc.
    + rewrite (open_valid c Hopen). unfold open_position_errors. rewrite (Hloud Hne Hgt).
      destruct (risk_error c), (stop_error c); simpl; apply andb_false_r.
  - intros Hne Hgt. apply Hquiet. unfold tp_error. destruct (TPLevels c); [reflexivity|].
    cbv zeta. now rewrite Hgt.
  - intros Hle. apply Hquiet. unfold tp_error. destruct (TPLevels c); [reflexivity|].
    cbv zeta. now rewrite (le_not_gt _ _ Hle).
  - intros Hnil. apply Hquiet. unfold tp_error. now rewrite Hnil.
  - intros p1 p2 Hl. rewrite (open_errors c Hopen).
    apply In_open_position_errors. right. right.
    unfold tp_error. rewrite Hl. now left.
Qed.

(** C6. For a trailing_stop command, symbol and trigger_price are required
    one by one; and exactly when callback_rate and distance are both absent
    the single entry "callback_rate or distance" is added (no entry for
    either field alone) and the command is invalid; when one of the two is
    present there is no such entry. *)
Theorem trailing_stop_required_fields (c : NormalizedCommand)
    (Htrail : Intent c = types.IntentTrailingStop) :
  Missing (ValidateCommand c) =
    (if String.eqb (Symbol c) "" then ["symbol"] else [])
    ++ (if is_nil (TriggerPrice c) then ["trigger_price"] else [])
    ++ (if is_nil (CallbackRate c) && is_nil (Distance c)
        then ["callback_rate or distance"] else [])
  /\ Errors (ValidateCommand c) = []
  /\ Valid (ValidateCommand c) = is_empty (Missing (ValidateCommand c))
  /\ (CallbackRate c = None -> Distance c = None ->
      count_occ string_dec (Missing (ValidateCommand c)) "callback_rate or distance" = 1
      /\ Valid (ValidateCommand c) = false)
  /\ (CallbackRate c <> None \/ Distance c <> None ->
      ~ In "callback_rate or distance" (Missing (ValidateCommand c)))
  /\ ~ In "callback_rate" (Missing (ValidateCommand c))
  /\ ~ In "distance" (Missing (ValidateCommand c)).
Proof.
  rewrite Valid_ValidateCommand, Missing_ValidateCommand, Errors_ValidateCommand.
  unfold expected_missing, expected_errors. rewrite (classify_trailing _ Htrail).
  unfold absent_fields, trailing_stop_required. simpl. rewrite app_nil_r.
  split; [reflexivity|]. split; [reflexivity|]. split; [apply andb_true_r|].
  destruct (String.eqb (Symbol c) ""), (TriggerPrice c), (CallbackRate c), (Distance c);
    simpl; (split; [intros; try congruence; split; reflexivity|]);
    (split; [try (intros [Hp | Hp]; congruence); intros _ Hin; simpl in Hin;
             repeat (destruct Hin as [Hin | Hin]; [discriminate Hin|]); exact Hin|]);
    split; intros Hin; simpl in Hin;
    repeat (destruct Hin as [Hin | Hin]; [discriminate Hin|]); exact Hin.
Qed.

Lemma classify_outside (i : types.Intent) :
  ~ In i intent_enumeration -> classify i = Unrecognized.
Proof.
  intros Hout. unfold classify, handled_intents, assoc.
  repeat match goal with
         | |- context [String.eqb i ?k] =>
             destruct (String.eqb_spec i k) as [E | _];
             [exfalso; apply Hout; rewrite E; unfold intent_enumeration; simpl; tauto|]
         end.
  reflexivity.
Qed.

Lemma Intent_extractEntity ParseFloat cmd entry :
  Intent (witai.extractEntity ParseFloat cmd entry) = Intent cmd.
Proof.
  destruct entry as [name [|entity rest]]; simpl; [reflexivity|].
  repeat match goal with
         | |- context [if ?b then _ else _] => destruct b
         | |- context [match ?o with Some _ => _ | None => _ end] => destruct o
         end; reflexivity.
Qed.

Lemma Intent_extractEntities ParseFloat entries cmd :
  Intent (fold_left (witai.extractEntity ParseFloat) entries cmd) = Intent cmd.
Proof.
  revert cmd. induction entries as [|entry entries IH]; intros cmd; simpl; [reflexivity|].
  now rewrite IH, Intent_extractEntity.
Qed.

(** With no intent candidate the transformer leaves [Intent] at the zero
    value of the string type. *)
Lemma transform_no_candidates ParseFloat resp rawInput now :
  witai.Intents resp = [] ->
  Intent (witai.transformWitResponse ParseFloat resp rawInput now) = "".
Proof.
  intros Hnone. unfold witai.transformWitResponse. rewrite Hnone.
  now rewrite Intent_extractEntities.
Qed.

(** C8. A command whose intent is "unknown", or a value outside the
    enumeration, or the zero value that the transformer leaves when the
    classification result has no intent candidate, is invalid, gets exactly
    the one error "unknown intent: " followed by the intent value, and no
    missing-field entry. *)
Theorem unknown_intent_rejected (c : NormalizedCommand)
    (Hunknown :
      Intent c = types.IntentUnknown
      \/ ~ In (Intent c) intent_enumeration
      \/ exists ParseFloat resp rawInput now,
           witai.Intents resp = []
           /\ c = witai.transformWitResponse ParseFloat resp rawInput now) :
  Valid (ValidateCommand c) = false
  /\ Errors (ValidateCommand c) = [("unknown intent: " ++ Intent c)%string]
  /\ Missing (ValidateCommand c) = [].
Proof.
  assert (Hclass : classify (Intent c) = Unrecognized).
  { destruct Hunknown as [E | [Hout | (pf & resp & raw & now & Hnone & ->)]].
    - now rewrite E.
    - now apply classify_outside.
    - now rewrite (transform_no_candidates pf resp raw now Hnone). }
  rewrite Valid_ValidateCommand, Missing_ValidateCommand, Errors_ValidateCommand.
  unfold expected_missing, expected_errors. rewrite Hclass. auto.
Qed.

(** C9. For an open_position command with risk_percent present, the error
    "risk_percent must be between 0 and 100" is reported, and the command
    invalid, exactly when risk_percent <= 0 or risk_percent > 100, which for
    a number is exactly when it lies outside (0,100]; 100 gives no error, 0
    gives the error, and an absent risk_percent gives no range error, only
    the missing-field entry. *)
Theorem open_position_risk_range (c : NormalizedCommand)
    (Hopen : Intent c = types.IntentOpenPosition) :
  (forall risk, RiskPercent c = Some risk ->
     (In "risk_percent must be between 0 and 100" (Errors (ValidateCommand c))
      <-> le risk 0 || gt risk 100 = true)
     /\ (le risk 0 || gt risk 100 = true -> Valid (ValidateCommand c) = false)
     /\ (is_nan risk = false ->
         (In "risk_percent must be between 0 and 100" (Errors (ValidateCommand c))
          <-> in_risk_range risk = false)))
  /\ (RiskPercent c = Some 100%float ->
      ~ In "risk_percent must be between 0 and 100" (Errors (ValidateCommand c)))
  /\ (RiskPercent c = Some 0%float ->
      In "risk_percent must be between 0 and 100" (Errors (ValidateCommand c)))
  /\ (RiskPercent c = None ->
      ~ In "risk_percent must be between 0 and 100" (Errors (ValidateCommand c))
      /\ In "risk_percent" (Missing (ValidateCommand c))).
Proof.
  rewrite (open_errors c Hopen), (open_valid c Hopen), (open_missing c Hopen).
change "risk_percent must be between 0 and 100" with risk_message.
assert (Hiff : forall risk, RiskPercent c = Some risk ->
          (In risk_message (open_position_errors c) <-> le risk 0 || gt risk 100 = true)).
{ intros risk Hr. rewrite risk_message_only, In_risk_error. split.
  - intros (_ & r & Hr' & Hc). congruence.
  - intros Hc. split; [reflexivity|]. eauto. }
split; [|split; [|split]].
- intros risk Hr. split; [exact (Hiff risk Hr)|]. split.
  + intros Hc. apply (Hiff risk Hr) in Hc.
    rewrite (is_empty_false_In _ _ Hc). apply andb_false_r.
  + intros Hnum. rewrite (Hiff risk Hr). unfold in_risk_range.
    rewrite (out_of_range_spec risk Hnum).
    destruct (lt 0 risk && le risk 100); simpl; split; congruence.
- intros Hr Hin. apply (Hiff _ Hr) in Hin. discriminate Hin.
- intros Hr. apply (Hiff _ Hr). reflexivity.
- intros Hr. split.
  + intros (_ & r & Hr' & _)%risk_message_only%In_risk_error. congruence.
  + unfold absent_fields, open_position_required. simpl. rewrite Hr. simpl.
    rewrite !in_app_iff. simpl. tauto.
Qed.

(** C10. [ValidateCommand] is idempotent: a second run leaves the command
    as the first run left it, since the three fields it writes are reset
    at the start and no rule reads them. *)
Theorem ValidateCommand_idempotent (c : NormalizedCommand) :
  ValidateCommand (ValidateCommand c) = ValidateCommand c.
Proof.
  rewrite (ValidateCommand_outcome (ValidateCommand c)).
  rewrite (ValidateCommand_outcome c).
  destruct (expected_with_outcome
              (is_empty (expected_missing c) && is_empty (expected_errors c))
              (expected_missing c) (expected_errors c) c) as [-> ->].
  apply with_outcome_twice.
Qed.

End ValidatorClaims.

(** ** The transformer's helpers *)

Module SplitFacts.

Import GoStrings TPRules.

Lemma Split_nonempty (s : string) (sep : ascii) : Split s sep <> [].
Proof.
  destruct s as [|c r]; simpl; [discriminate|].
  destruct (Ascii.eqb c sep); [discriminate|].
  destruct (Split r sep); discriminate.
Qed.

(** A text without the separator is one piece. *)
Lemma Split_whole (s : string) (sep : ascii) :
  has_byte sep s = false -> Split s sep = [s].
Proof.
  induction s as [|c r IH]; simpl; [reflexivity|].
  intros [Hc Hr]%orb_false_iff. rewrite Hc, (IH Hr). reflexivity.
Qed.

Lemma Split_append (s rest : string) (sep : ascii) :
  has_byte sep s = false ->
  Split (s ++ String sep rest) sep = s :: Split rest sep.
Proof.
  induction s as [|c r IH]; simpl.
  - intros _. now rewrite Ascii.eqb_refl.
  - intros [Hc Hr]%orb_false_iff. rewrite Hc, (IH Hr). reflexivity.
Qed.

(** Splitting the joined tokens gives the tokens back. *)
Lemma Split_Join (parts : list string) (sep : ascii) :
  parts <> [] -> Forall (fun p => has_byte sep p = false) parts ->
  Split (Join parts sep) sep = parts.
Proof.
  induction parts as [|p rest IH]; [congruence|].
  intros _ Hfree. apply Forall_cons in Hfree as [Hp Hrest].
  destruct rest as [|q rest'].
  - simpl. now apply Split_whole.
  - change (Join (p :: q :: rest') sep) with (p ++ String sep (Join (q :: rest') sep))%string.
    rewrite (Split_append _ _ _ Hp). f_equal. apply IH; [discriminate | exact Hrest].
Qed.

End SplitFacts.

Section TransformerClaims.

Import GoStrings TPRules SplitFacts witai.

Variable ParseFloat : string -> option float.

Lemma parseTPLevels_step_tokenLevel (levels : list TPLevel) (part : string) :
  parseTPLevels_step ParseFloat levels part
  = levels ++ option_list (tokenLevel ParseFloat part).
Proof.
  unfold parseTPLevels_step, tokenLevel.
  destruct (Split (TrimSpace part) ":") as [|p [|q [|r rest]]]; simpl;
    rewrite ?app_nil_r; try reflexivity.
  destruct (ParseFloat p), (ParseFloat q); simpl; rewrite ?app_nil_r; reflexivity.
Qed.

Lemma parseTPLevels_loop (parts : list string) (levels : list TPLevel) :
  fold_left (parseTPLevels_step ParseFloat) parts levels
  = levels ++ omap (tokenLevel ParseFloat) parts.
Proof.
  revert levels. induction parts as [|part parts IH]; intros levels; simpl.
  - now rewrite app_nil_r.
  - rewrite IH, parseTPLevels_step_tokenLevel, <- app_assoc. f_equal.
    destruct (tokenLevel ParseFloat part); reflexivity.
Qed.

Lemma parseTPLevels_tokens (input : string) :
  parseTPLevels ParseFloat input = omap (tokenLevel ParseFloat) (Split input ",").
Proof. unfold parseTPLevels. now rewrite parseTPLevels_loop. Qed.

Lemma parseTPLevels_Join (tokens : list string) :
  Forall (fun t => has_byte "," t = false) tokens ->
  parseTPLevels ParseFloat (Join tokens ",") = omap (tokenLevel ParseFloat) tokens.
Proof.
  intros Hfree. rewrite parseTPLevels_tokens.
  destruct tokens as [|t ts]; [reflexivity|].
  rewrite Split_Join; [reflexivity | discriminate | exact Hfree].
Qed.

(** C7. [parseTPLevels] splits the input on commas and keeps, for every
    token that trimmed and split on the colon yields two halves that both
    parse as numbers, the level of the two numbers, in the order of the
    tokens; the other tokens are dropped: dropping one from the input
    changes nothing in the result; the empty input gives no level. *)
Theorem parseTPLevels_keeps_well_formed_tokens (input : string) :
  parseTPLevels ParseFloat input = omap (tokenLevel ParseFloat) (Split input ",")
  /\ parseTPLevels ParseFloat "" = []
  /\ (forall tokens,
        Forall (fun t => has_byte "," t = false) tokens ->
        parseTPLevels ParseFloat (Join tokens ",") = omap (tokenLevel ParseFloat) tokens)
  /\ (forall before bad after,
        Forall (fun t => has_byte "," t = false) (before ++ bad :: after) ->
        tokenLevel ParseFloat bad = None ->
        parseTPLevels ParseFloat (Join (before ++ bad :: after) ",")
        = parseTPLevels ParseFloat (Join (before ++ after) ",")).
Proof.
  split; [apply parseTPLevels_tokens|]. split; [reflexivity|].
  split; [apply parseTPLevels_Join|].
  intros before bad after Hfree Hbad.
  rewrite (parseTPLevels_Join _ Hfree).
  rewrite parseTPLevels_Join.
  - rewrite !omap_app. simpl. now rewrite Hbad.
  - apply Forall_app in Hfree as [Hb Ha]. apply Forall_cons in Ha as [_ Ha].
    apply Forall_app. split; assumption.
Qed.

End TransformerClaims.

(** The examples of the specification for the parser, read with
    [witai.ParseFloat_digits]. *)
Example parseTPLevels_examples :
  witai.parseTPLevels witai.ParseFloat_digits "46000:50,47000:50"
    = [mkTPLevel 46000 50; mkTPLevel 47000 50]
  /\ witai.parseTPLevels witai.ParseFloat_digits "46000:50,invalid,47000:50"
    = [mkTPLevel 46000 50; mkTPLevel 47000 50]
  /\ witai.parseTPLevels witai.ParseFloat_digits " 46000:50 , 47000:50 "
    = [mkTPLevel 46000 50; mkTPLevel 47000 50]
  /\ witai.parseTPLevels witai.ParseFloat_digits "1:2:3,46000,:" = [].
Proof. repeat split; vm_compute; reflexivity. Qed.

(** Where the input carries no surrounding white space and is not a synonym,
    [normalizeSymbol] gives the input in upper case with "-USDT" appended
    once. *)
Lemma normalizeSymbol_unpadded (symbol : string) :
  witai.symbolMap !! GoStrings.ToLower (GoStrings.TrimSpace symbol) = None ->
  GoStrings.TrimSpace symbol = symbol ->
  witai.normalizeSymbol symbol
  = if GoStrings.HasSuffix (GoStrings.ToUpper symbol) "-USDT"
    then GoStrings.ToUpper (GoStrings.TrimSpace symbol)
    else (GoStrings.ToUpper (GoStrings.TrimSpace symbol) ++ "-USDT")%string.
Proof.
  intros Hnone Htrim. unfold witai.normalizeSymbol. rewrite Hnone, Htrim.
  destruct (GoStrings.HasSuffix _ _); reflexivity.
Qed.

(** C5. On " xyz ", which is not a synonym, [normalizeSymbol] returns
    " XYZ -USDT": the white space that was trimmed for the lookup is still
    in the result, where the trimmed input in upper case with the suffix is
    "XYZ-USDT"; and "btc-usdt " gets the suffix a second time. *)
Theorem normalizeSymbol_keeps_padding :
  witai.symbolMap !! GoStrings.ToLower (GoStrings.TrimSpace " xyz ") = None
  /\ witai.normalizeSymbol " xyz " = " XYZ -USDT"
  /\ (GoStrings.ToUpper (GoStrings.TrimSpace " xyz ") ++ "-USDT")%string = "XYZ-USDT"
  /\ witai.symbolMap !! GoStrings.ToLower (GoStrings.TrimSpace "btc-usdt ") = None
  /\ witai.normalizeSymbol "btc-usdt " = "BTC-USDT -USDT".
Proof. repeat split; vm_compute; reflexivity. Qed.

(** ** The claims at the specification's examples *)

Lemma open_position_missing_fields_witness :
  Missing (validators.ValidateCommand Examples.open_bare)
    = ["symbol"; "side"; "entry_price"; "stop_loss"]
  /\ Valid (validators.ValidateCommand Examples.open_bare) = false
  /\ Errors (validators.ValidateCommand Examples.open_bare)
    = ["risk_percent must be between 0 and 100"].
Proof.
  destruct (open_position_missing_fields Examples.open_bare eq_refl) as (Hm & Hv & He).
  split; [exact Hm|]. split; [|exact He].
  apply Hv. rewrite Hm. discriminate.
Defined.

Lemma open_position_stop_loss_side_witness :
  (In "stop_loss must be below entry_price for LONG"
      (Errors (validators.ValidateCommand Examples.long_stop_above))
   /\ Valid (validators.ValidateCommand Examples.long_stop_above) = false)
  /\ (In "stop_loss must be above entry_price for SHORT"
        (Errors (validators.ValidateCommand Examples.short_stop_below))
      /\ Valid (validators.ValidateCommand Examples.short_stop_below) = false).
Proof.
  split.
  - destruct (open_position_stop_loss_side Examples.long_stop_above eq_refl) as (Hlong & _).
    apply (Hlong 45000%float 46000%float); reflexivity.
  - destruct (open_position_stop_loss_side Examples.short_stop_below eq_refl)
      as (_ & Hshort & _).
    apply (Hshort 3000%float 2900%float); reflexivity.
Defined.

Lemma open_position_tp_sum_witness :
  (Errors (validators.ValidateCommand Examples.tp_110)
     = ["TP percentages sum to 110.0%, cannot exceed 100%"]
   /\ Valid (validators.ValidateCommand Examples.tp_110) = false)
  /\ (Errors (validators.ValidateCommand TPExamples.tp_three_110)
       = ["TP percentages sum to 110.0%, cannot exceed 100%"]
      /\ Valid (validators.ValidateCommand TPExamples.tp_three_110) = false)
  /\ (Errors (validators.ValidateCommand TPExamples.tp_100) = []
      /\ Valid (validators.ValidateCommand TPExamples.tp_100) = true).
Proof.
  split; [|split].
  - destruct (open_position_tp_sum Examples.tp_110 eq_refl) as (_ & Hloud & _).
    destruct Hloud as [He Hv]; [discriminate | reflexivity |].
    split; [exact He | exact Hv].
  - destruct (open_position_tp_sum TPExamples.tp_three_110 eq_refl) as (_ & Hloud & _).
    destruct Hloud as [He Hv]; [discriminate | reflexivity |].
    split; [exact He | exact Hv].
  - destruct (open_position_tp_sum TPExamples.tp_100 eq_refl) as (_ & _ & _ & Hquiet & _).
    destruct Hquiet as [He Hv]; [reflexivity|].
    split; [exact He | exact Hv].
Defined.

Lemma trailing_stop_required_fields_witness :
  Missing (validators.ValidateCommand Examples.trailing_bare) = ["callback_rate or distance"]
  /\ Valid (validators.ValidateCommand Examples.trailing_bare) = false.
Proof.
  destruct (trailing_stop_required_fields Examples.trailing_bare eq_refl)
    as (Hm & _ & _ & Hboth & _).
  split; [exact Hm|]. apply Hboth; reflexivity.
Defined.

Lemma unknown_intent_rejected_witness :
  let c := witai.transformWitResponse witai.ParseFloat_digits Examples.no_candidates
             "do something with crypto" 0%Z in
  Valid (validators.ValidateCommand c) = false
  /\ Errors (validators.ValidateCommand c) = ["unknown intent: "]
  /\ Missing (validators.ValidateCommand c) = [].
Proof.
  apply unknown_intent_rejected. right. right.
  exists witai.ParseFloat_digits, Examples.no_candidates, "do something with crypto", 0%Z.
  split; reflexivity.
Defined.

Lemma open_position_risk_range_witness :
  (In "risk_percent must be between 0 and 100"
      (Errors (validators.ValidateCommand Examples.risk_zero))
   /\ Valid (validators.ValidateCommand Examples.risk_zero) = false)
  /\ ~ In "risk_percent must be between 0 and 100"
        (Errors (validators.ValidateCommand Examples.risk_hundred)).
Proof.
  split.
  - destruct (open_position_risk_range Examples.risk_zero eq_refl) as (Hsome & _ & Hzero & _).
    split; [apply Hzero; reflexivity|].
    destruct (Hsome 0%float eq_refl) as (_ & Hinvalid & _).
    apply Hinvalid. reflexivity.
  - destruct (open_position_risk_range Examples.risk_hundred eq_refl) as (_ & Hhundred & _).
    apply Hhundred. reflexivity.
Defined.

Lemma parseTPLevels_keeps_well_formed_tokens_witness :
  witai.parseTPLevels witai.ParseFloat_digits
    (TPRules.Join ["46000:50"; "invalid"; "47000:50"] ",")
  = witai.parseTPLevels witai.ParseFloat_digits (TPRules.Join ["46000:50"; "47000:50"] ",").
Proof.
  destruct (parseTPLevels_keeps_well_formed_tokens witai.ParseFloat_digits "")
    as (_ & _ & _ & Hdrop).
  apply (Hdrop ["46000:50"] "invalid" ["47000:50"]); [|reflexivity].
  repeat constructor.
Defined.

(** * Further properties of the code *)

(** ** The validator on the other intents, and as a whole *)

Section ValidatorMore.

Import GoFloat GoFloatFacts validators Rules ValidatorFacts ErrorFacts.

Lemma classify_close (i : types.Intent) :
  i = types.IntentClosePosition \/ i = types.IntentBreakEven ->
  classify i = ClosePosition \/ classify i = BreakEven.
Proof. intros [-> | ->]; [left | right]; reflexivity. Qed.

(** X1. For a close_position or a break_even command the symbol is the only
    requirement: [missing] is ["symbol"] when the symbol is empty and empty
    otherwise, there is never an error, and the command is valid exactly when
    the symbol is not empty, whatever the other fields hold. *)
Theorem symbol_is_the_only_requirement (c : NormalizedCommand)
    (Hintent : Intent c = types.IntentClosePosition \/ Intent c = types.IntentBreakEven) :
  Missing (ValidateCommand c) = (if String.eqb (Symbol c) "" then ["symbol"] else [])
  /\ Errors (ValidateCommand c) = []
  /\ Valid (ValidateCommand c) = negb (String.eqb (Symbol c) "").
Proof.
  rewrite Valid_ValidateCommand, Missing_ValidateCommand, Errors_ValidateCommand.
  unfold expected_missing, expected_errors.
  destruct (classify_close _ Hintent) as [-> | ->];
    unfold absent_fields, symbol_required; simpl;
    destruct (String.eqb (Symbol c) ""); auto.
Qed.

(** X2. cancel_orders, view_positions, view_orders and check_balance are
    never validated: the command comes out valid with no missing field and
    no error, whatever its fields hold (the symbol may be empty). *)
Theorem query_intents_always_valid (c : NormalizedCommand)
    (Hintent : In (Intent c)
                 [ types.IntentCancelOrders; types.IntentViewPositions;
                   types.IntentViewOrders; types.IntentCheckBalance ]) :
  Valid (ValidateCommand c) = true
  /\ Missing (ValidateCommand c) = []
  /\ Errors (ValidateCommand c) = [].
Proof.
  rewrite Valid_ValidateCommand, Missing_ValidateCommand, Errors_ValidateCommand.
  unfold expected_missing, expected_errors.
  destruct Hintent as [<- | [<- | [<- | [<- | []]]]]; auto.
Qed.

(** X3. [ValidateCommand] writes [Valid], [Missing] and [Errors] and nothing
    else: every other field of the command is as it was. *)
Theorem ValidateCommand_keeps_the_inputs (c : NormalizedCommand) :
  Intent (ValidateCommand c) = Intent c
  /\ Confidence (ValidateCommand c) = Confidence c
  /\ Symbol (ValidateCommand c) = Symbol c
  /\ Side (ValidateCommand c) = Side c
  /\ EntryPrice (ValidateCommand c) = EntryPrice c
  /\ StopLoss (ValidateCommand c) = StopLoss c
  /\ TakeProfit (ValidateCommand c) = TakeProfit c
  /\ TriggerPrice (ValidateCommand c) = TriggerPrice c
  /\ TPLevels (ValidateCommand c) = TPLevels c
  /\ RiskPercent (ValidateCommand c) = RiskPercent c
  /\ RRRatio (ValidateCommand c) = RRRatio c
  /\ CallbackRate (ValidateCommand c) = CallbackRate c
  /\ Distance (ValidateCommand c) = Distance c
  /\ RawInput (ValidateCommand c) = RawInput c
  /\ Language (ValidateCommand c) = Language c
  /\ Timestamp (ValidateCommand c) = Timestamp c.
Proof. rewrite ValidateCommand_outcome. repeat split. Qed.

(** X4. What [Valid], [Missing] and [Errors] held before the call has no
    effect on the result: a command that carries the outcome of an earlier
    validation, or any other content in these fields, is validated as if
    they were blank. *)
Theorem ValidateCommand_discards_previous_outcome
    (v : bool) (m e : list string) (c : NormalizedCommand) :
  ValidateCommand (set_Valid v (set_Missing m (set_Errors e c))) = ValidateCommand c.
Proof.
  change (set_Valid v (set_Missing m (set_Errors e c))) with (with_outcome v m e c).
  rewrite (ValidateCommand_outcome (with_outcome v m e c)), (ValidateCommand_outcome c).
  destruct (expected_with_outcome v m e c) as [-> ->].
  apply with_outcome_twice.
Qed.

(** X5. An open_position command is valid exactly when the symbol is not
    empty, side, entry_price, stop_loss and risk_percent are present, the
    risk is neither <= 0 nor > 100, a LONG has not stop_loss >= entry_price,
    a SHORT has not stop_loss <= entry_price, and the percentages of all the
    take-profit levels, if there are any, do not sum to more than 100. *)
Theorem open_position_valid_iff (c : NormalizedCommand)
    (Hopen : Intent c = types.IntentOpenPosition) :
  Valid (ValidateCommand c) = true <->
  Symbol c <> ""
  /\ exists side entry stop risk,
       Side c = Some side /\ EntryPrice c = Some entry
       /\ StopLoss c = Some stop /\ RiskPercent c = Some risk
       /\ le risk 0 = false /\ gt risk 100 = false
       /\ (side = types.SideLong -> ge stop entry = false)
       /\ (side = types.SideShort -> le stop entry = false)
       /\ (TPLevels c = []
           \/ gt (TPSum.sum_percentages (TPLevels c)) 100 = false).
Proof.
  rewrite <- (totalPct_sum (TPLevels c)).
  rewrite (open_valid c Hopen), andb_true_iff, !is_empty_true.
  unfold absent_fields, open_position_required, open_position_errors,
    risk_error, stop_error, tp_error. cbn [flat_map fst snd].
  destruct (String.eqb_spec (Symbol c) "") as [Hsym | Hsym].
  { split; [intros [[=] _] | intros [Hne _]; congruence]. }
  destruct (Side c) as [side|];
    [|split; [intros [[=] _] | intros (_ & s & e & st & r & [=] & _)]].
  destruct (EntryPrice c) as [entry|];
    [|split; [intros [[=] _] | intros (_ & s & e & st & r & _ & [=] & _)]].
  destruct (StopLoss c) as [stop|];
    [|split; [intros [[=] _] | intros (_ & s & e & st & r & _ & _ & [=] & _)]].
  destruct (RiskPercent c) as [risk|];
    [|split; [intros [[=] _] | intros (_ & s & e & st & r & _ & _ & _ & [=] & _)]].
  cbn [is_nil app].
  split.
  - intros [_ Herr]. split; [exact Hsym|]. exists side, entry, stop, risk.
    destruct (le risk 0) eqn:E1; [discriminate Herr|].
    destruct (gt risk 100) eqn:E2; [discriminate Herr|].
    cbn [orb app] in Herr.
    repeat split; try reflexivity.
    + intros ->. cbn [String.eqb Ascii.eqb Bool.eqb andb] in Herr.
      destruct (ge stop entry); [discriminate Herr | reflexivity].
    + intros ->. cbn [String.eqb Ascii.eqb Bool.eqb andb] in Herr.
      destruct (le stop entry); [|reflexivity].
      simpl in Herr. discriminate Herr.
    + destruct (TPLevels c) as [|tp tps]; [now left|]. right.
      destruct (gt (totalPct (tp :: tps)) 100); [|reflexivity].
      apply (f_equal (@length string)) in Herr. rewrite !length_app in Herr.
      simpl in Herr. lia.
  - intros (_ & s & e & st & r & [= <-] & [= <-] & [= <-] & [= <-]
            & -> & -> & Hlong & Hshort & Htp).
    split; [reflexivity|]. cbn [orb app].
    assert (Hl : String.eqb side "LONG" && ge stop entry = false).
    { destruct (String.eqb_spec side "LONG") as [E|]; [|reflexivity].
      now rewrite (Hlong E). }
    assert (Hs : String.eqb side "SHORT" && le stop entry = false).
    { destruct (String.eqb_spec side "SHORT") as [E|]; [|reflexivity].
      now rewrite (Hshort E). }
    rewrite Hl, Hs. cbn [app].
    destruct Htp as [-> | Htp]; [reflexivity|].
    destruct (TPLevels c); [reflexivity|]. cbv zeta. now rewrite Htp.
Qed.

(** X6. The two stop-loss errors never come together, for any command; and
    the side is compared as it is written: a side that is neither "LONG" nor
    "SHORT" (a lower-case "long", say) gets no stop-loss check at all. *)
Theorem stop_loss_errors_exclusive (c : NormalizedCommand) :
  ~ (In "stop_loss must be below entry_price for LONG" (Errors (ValidateCommand c))
     /\ In "stop_loss must be above entry_price for SHORT" (Errors (ValidateCommand c)))
  /\ (forall side,
        Side c = Some side -> side <> types.SideLong -> side <> types.SideShort ->
        ~ In "stop_loss must be below entry_price for LONG" (Errors (ValidateCommand c))
        /\ ~ In "stop_loss must be above entry_price for SHORT"
               (Errors (ValidateCommand c))).
Proof.
  rewrite Errors_ValidateCommand.
  assert (Hstop : forall m, m = long_stop_message \/ m = short_stop_message ->
            In m (expected_errors c) -> In m (stop_error c)).
  { intros m Hm. unfold expected_errors.
    destruct (classify (Intent c)); try solve [intros []].
    - now apply stop_message_only.
    - intros [E | []]. destruct Hm as [-> | ->]; discriminate E. }
  split.
  - intros [Hl Hs].
    apply Hstop in Hl; [|now left]. apply Hstop in Hs; [|now right].
    apply In_stop_error in Hl, Hs.
    destruct Hl as (s1 & _ & _ & E1 & _ & _ & [(_ & -> & _) | ([=] & _)]).
    destruct Hs as (s2 & _ & _ & E2 & _ & _ & [([=] & _) | (_ & -> & _)]).
    rewrite E1 in E2. discriminate E2.
  - intros side Hside Hnl Hns. split; intros Hin.
    + apply Hstop in Hin; [|now left]. apply In_stop_error in Hin.
      destruct Hin as (s & _ & _ & E & _ & _ & [(_ & -> & _) | ([=] & _)]). congruence.
    + apply Hstop in Hin; [|now right]. apply In_stop_error in Hin.
      destruct Hin as (s & _ & _ & E & _ & _ & [([=] & _) | (_ & -> & _)]). congruence.
Qed.

End ValidatorMore.

(** ** Go strings: letter case and white space *)

Module CaseFacts.

Import GoStrings AsciiText.

Ltac every_byte c := destruct c as [[] [] [] [] [] [] [] []]; vm_compute; auto.

(** A byte that changes case is an ASCII letter before and after. *)
Lemma lower_byte_cases (c : ascii) :
  lower_byte c = c
  \/ ((N_of_ascii c <? 128)%N = true /\ (N_of_ascii (lower_byte c) <? 128)%N = true).
Proof. every_byte c. Qed.

Lemma upper_lower_byte (c : ascii) : upper_byte (lower_byte c) = upper_byte c.
Proof. every_byte c. Qed.

Lemma upper_upper_byte (c : ascii) : upper_byte (upper_byte c) = upper_byte c.
Proof. every_byte c. Qed.

Lemma isSpace1_lower (c : ascii) : isSpace1 (lower_byte c) = isSpace1 c.
Proof. every_byte c. Qed.

Lemma byte_is_lower (n : N) (c : ascii) :
  (128 <=? n)%N = true -> byte_is n (lower_byte c) = byte_is n c.
Proof.
  intros Hn%N.leb_le. unfold byte_is.
  destruct (lower_byte_cases c) as [-> | [H1%N.ltb_lt H2%N.ltb_lt]]; [reflexivity|].
  rewrite !(proj2 (N.eqb_neq _ _)) by lia. reflexivity.
Qed.

Lemma byte_in_lower (lo hi : N) (c : ascii) :
  (128 <=? lo)%N = true -> byte_in lo hi (lower_byte c) = byte_in lo hi c.
Proof.
  intros Hn%N.leb_le. unfold byte_in.
  destruct (lower_byte_cases c) as [-> | [H1%N.ltb_lt H2%N.ltb_lt]]; [reflexivity|].
  rewrite !(proj2 (N.leb_gt lo _)) by lia. reflexivity.
Qed.

Lemma isSpace2_lower (c1 c2 : ascii) :
  isSpace2 (lower_byte c1) (lower_byte c2) = isSpace2 c1 c2.
Proof. unfold isSpace2. now rewrite !byte_is_lower by reflexivity. Qed.

Lemma isSpace3_lower (c1 c2 c3 : ascii) :
  isSpace3 (lower_byte c1) (lower_byte c2) (lower_byte c3) = isSpace3 c1 c2 c3.
Proof.
  unfold isSpace3.
  now rewrite !byte_is_lower, !byte_in_lower by reflexivity.
Qed.

Lemma ToUpper_ToLower (s : string) : ToUpper (ToLower s) = ToUpper s.
Proof. induction s as [|c r IH]; simpl; [reflexivity|]. now rewrite upper_lower_byte, IH. Qed.

Lemma ToUpper_ToUpper (s : string) : ToUpper (ToUpper s) = ToUpper s.
Proof. induction s as [|c r IH]; simpl; [reflexivity|]. now rewrite upper_upper_byte, IH. Qed.

Lemma ToUpper_append (s t : string) : ToUpper (s ++ t) = (ToUpper s ++ ToUpper t)%string.
Proof. induction s as [|c r IH]; simpl; [reflexivity|]. now rewrite IH. Qed.

Lemma ToLower_append (s t : string) : ToLower (s ++ t) = (ToLower s ++ ToLower t)%string.
Proof. induction s as [|c r IH]; simpl; [reflexivity|]. now rewrite IH. Qed.

Lemma ToLower_rev_app (s acc : string) :
  ToLower (String.rev_app s acc) = String.rev_app (ToLower s) (ToLower acc).
Proof.
  revert acc. induction s as [|c r IH]; intros acc; simpl; [reflexivity|].
  now rewrite IH.
Qed.

Lemma ToLower_rev (s : string) : ToLower (String.rev s) = String.rev (ToLower s).
Proof. apply ToLower_rev_app. Qed.

(** Trimming looks at white space only, which has no letter case. *)
Lemma trimLeftSpace_lower_bounded (n : nat) (s : string) :
  String.length s <= n -> trimLeftSpace (ToLower s) = ToLower (trimLeftSpace s).
Proof.
  revert s. induction n as [|n IH]; intros s Hlen.
  { destruct s; [reflexivity | simpl in Hlen; lia]. }
  destruct s as [|c1 r1]; [reflexivity|].
  cbn [ToLower trimLeftSpace]. rewrite isSpace1_lower.
  destruct (isSpace1 c1); [apply IH; simpl in Hlen; lia|].
  destruct r1 as [|c2 r2]; [reflexivity|].
  cbn [ToLower]. rewrite isSpace2_lower.
  destruct (isSpace2 c1 c2); [apply IH; simpl in Hlen; lia|].
  destruct r2 as [|c3 r3]; [reflexivity|].
  cbn [ToLower]. rewrite isSpace3_lower.
  destruct (isSpace3 c1 c2 c3); [apply IH; simpl in Hlen; lia | reflexivity].
Qed.

Lemma trimLeftSpace_lower (s : string) :
  trimLeftSpace (ToLower s) = ToLower (trimLeftSpace s).
Proof. exact (trimLeftSpace_lower_bounded (String.length s) s (le_n _)). Qed.

Lemma trimLeftSpaceRev_lower_bounded (n : nat) (s : string) :
  String.length s <= n -> trimLeftSpaceRev (ToLower s) = ToLower (trimLeftSpaceRev s).
Proof.
  revert s. induction n as [|n IH]; intros s Hlen.
  { destruct s; [reflexivity | simpl in Hlen; lia]. }
  destruct s as [|c1 r1]; [reflexivity|].
  cbn [ToLower trimLeftSpaceRev]. rewrite isSpace1_lower.
  destruct (isSpace1 c1); [apply IH; simpl in Hlen; lia|].
  destruct r1 as [|c2 r2]; [reflexivity|].
  cbn [ToLower]. rewrite isSpace2_lower.
  destruct (isSpace2 c2 c1); [apply IH; simpl in Hlen; lia|].
  destruct r2 as [|c3 r3]; [reflexivity|].
  cbn [ToLower]. rewrite isSpace3_lower.
  destruct (isSpace3 c3 c2 c1); [apply IH; simpl in Hlen; lia | reflexivity].
Qed.

Lemma TrimSpace_lower (s : string) : TrimSpace (ToLower s) = ToLower (TrimSpace s).
Proof.
  unfold TrimSpace, trimRightSpace.
  rewrite trimLeftSpace_lower, <- ToLower_rev.
  rewrite (trimLeftSpaceRev_lower_bounded _ _ (le_n _)).
  now rewrite ToLower_rev.
Qed.

End CaseFacts.

Section NormalizerCase.

Import GoStrings AsciiText CaseFacts witai.

(** X7. [normalizeSide] and [normalizeSymbol] do not depend on the letter
    case of the input: two ASCII texts that differ only in the case of their
    letters get the same side and the same symbol. *)
Theorem normalizers_ignore_letter_case (s t : string)
    (Hs : is_ascii s = true) (Ht : is_ascii t = true)
    (Hcase : ToLower s = ToLower t) :
  normalizeSide s = normalizeSide t /\ normalizeSymbol s = normalizeSymbol t.
Proof.
  assert (Hkey : ToLower (TrimSpace s) = ToLower (TrimSpace t))
    by now rewrite <- !TrimSpace_lower, Hcase.
  assert (Hup : ToUpper s = ToUpper t)
    by now rewrite <- (ToUpper_ToLower s), Hcase, ToUpper_ToLower.
  unfold normalizeSide, normalizeSymbol. cbv zeta.
  now rewrite Hkey, Hup.
Qed.

End NormalizerCase.

(** ** Suffixes and the quote suffix of symbols *)

Module SuffixFacts.

Import GoStrings CaseFacts.

Lemma append_cons (c : ascii) (s t : string) :
  (String c s ++ t)%string = String c (s ++ t).
Proof. reflexivity. Qed.

Lemma length_append (s t : string) :
  String.length (s ++ t) = String.length s + String.length t.
Proof. induction s as [|c r IH]; simpl; [reflexivity|]. now rewrite IH. Qed.

Lemma substring_all (s : string) : String.substring 0 (String.length s) s = s.
Proof. induction s as [|c r IH]; simpl; [reflexivity|]. now rewrite IH. Qed.

Lemma substring_append (s t : string) :
  String.substring (String.length s) (String.length t) (s ++ t) = t.
Proof. induction s as [|c r IH]; simpl; [apply substring_all | exact IH]. Qed.

(** A text followed by [t] has the suffix [t]. *)
Lemma HasSuffix_append (s t : string) : HasSuffix (s ++ t) t = true.
Proof.
  unfold HasSuffix. rewrite length_append.
  replace (String.length s + String.length t - String.length t)
    with (String.length s) by lia.
  rewrite substring_append, String.eqb_refl.
  rewrite (proj2 (Nat.leb_le _ _)) by lia. reflexivity.
Qed.

Lemma substring_split (m : nat) (s : string) :
  m <= String.length s ->
  s = (String.substring 0 m s ++ String.substring m (String.length s - m) s)%string.
Proof.
  revert s. induction m as [|m IH]; intros s Hm.
  - rewrite Nat.sub_0_r, substring_all. now destruct s.
  - destruct s as [|c r]; simpl in Hm; [lia|].
    simpl. rewrite append_cons. f_equal. apply IH. lia.
Qed.

(** A text with the suffix [t] is some text followed by [t]. *)
Lemma HasSuffix_inv (s t : string) :
  HasSuffix s t = true -> exists u, s = (u ++ t)%string.
Proof.
  unfold HasSuffix. intros [Hle%Nat.leb_le Heq%String.eqb_eq]%andb_true_iff.
  exists (String.substring 0 (String.length s - String.length t) s).
  remember (String.length s - String.length t) as m eqn:Hm.
  replace (String.length t) with (String.length s - m) in Heq by lia.
  rewrite <- Heq. apply substring_split. lia.
Qed.

Lemma rev_app_rev_app (s a b : string) :
  String.rev_app (String.rev_app s a) b = String.rev_app a (s ++ b).
Proof.
  revert a b. induction s as [|c r IH]; intros a b; simpl; [reflexivity|].
  now rewrite IH.
Qed.

Lemma append_empty_r (s : string) : (s ++ "")%string = s.
Proof. induction s as [|c r IH]; [reflexivity|]. now rewrite append_cons, IH. Qed.

Lemma rev_rev (s : string) : String.rev (String.rev s) = s.
Proof. unfold String.rev. rewrite rev_app_rev_app. simpl. apply append_empty_r. Qed.

Lemma rev_app_append (s t acc : string) :
  String.rev_app (s ++ t) acc = String.rev_app t (String.rev_app s acc).
Proof. revert acc. induction s as [|c r IH]; intros acc; simpl; [reflexivity|]. apply IH. Qed.

Lemma isSpace2_dash (c : ascii) : isSpace2 c "-" = false.
Proof. unfold isSpace2. apply andb_false_r. Qed.

Lemma isSpace3_dash_last (c1 c2 : ascii) : isSpace3 c1 c2 "-" = false.
Proof.
  unfold isSpace3.
  change (byte_is 128 "-") with false. change (byte_is 159 "-") with false.
  change (byte_in 128 138 "-" || byte_is 168 "-" || byte_is 169 "-" || byte_is 175 "-")
    with false.
  now rewrite !andb_false_r.
Qed.

Lemma isSpace3_dash_middle (c1 c3 : ascii) : isSpace3 c1 "-" c3 = false.
Proof.
  unfold isSpace3.
  change (byte_is 154 "-") with false. change (byte_is 128 "-") with false.
  change (byte_is 129 "-") with false.
  now rewrite !andb_false_r.
Qed.

(** Trimming on the left never reaches into a final "-USDT". *)
Lemma trimLeftSpace_keeps_quote_bounded (n : nat) (u : string) :
  String.length u <= n ->
  exists u', trimLeftSpace (u ++ "-USDT") = (u' ++ "-USDT")%string.
Proof.
  revert u. induction n as [|n IH]; intros u Hlen.
  { destruct u; [now exists "" | simpl in Hlen; lia]. }
  destruct u as [|c1 r1]; [now exists ""|].
  change ((String c1 r1 ++ "-USDT")%string) with (String c1 (r1 ++ "-USDT")).
  cbn [trimLeftSpace].
  destruct (isSpace1 c1); [apply IH; simpl in Hlen; lia|].
  destruct r1 as [|c2 r2].
  { change (("" ++ "-USDT")%string) with "-USDT". cbv iota beta.
    rewrite isSpace2_dash, isSpace3_dash_middle. now exists (String c1 ""). }
  change ((String c2 r2 ++ "-USDT")%string) with (String c2 (r2 ++ "-USDT")).
  cbv iota beta.
  destruct (isSpace2 c1 c2); [apply IH; simpl in Hlen; lia|].
  destruct r2 as [|c3 r3].
  { change (("" ++ "-USDT")%string) with "-USDT". cbv iota beta.
    rewrite isSpace3_dash_last. now exists (String c1 (String c2 "")). }
  change ((String c3 r3 ++ "-USDT")%string) with (String c3 (r3 ++ "-USDT")).
  cbv iota beta.
  destruct (isSpace3 c1 c2 c3); [apply IH; simpl in Hlen; lia|].
  now exists (String c1 (String c2 (String c3 r3))).
Qed.

(** Trimming on the right stops at once at a final "-USDT". *)
Lemma trimRightSpace_keeps_quote (u : string) :
  trimRightSpace (u ++ "-USDT") = (u ++ "-USDT")%string.
Proof.
  unfold trimRightSpace.
  assert (Hrev : String.rev (u ++ "-USDT")
                 = String "T" (String "D" (String "S" (String "U" (String "-"
                     (String.rev u)))))).
  { unfold String.rev. now rewrite rev_app_append. }
  rewrite Hrev.
  change (trimLeftSpaceRev (String "T" (String "D" (String "S" (String "U" (String "-"
            (String.rev u)))))))
    with (String "T" (String "D" (String "S" (String "U" (String "-" (String.rev u)))))).
  now rewrite <- Hrev, rev_rev.
Qed.

Lemma TrimSpace_keeps_quote (u : string) :
  exists u', TrimSpace (u ++ "-USDT") = (u' ++ "-USDT")%string.
Proof.
  unfold TrimSpace.
  destruct (trimLeftSpace_keeps_quote_bounded _ u (le_n _)) as [u' ->].
  exists u'. apply trimRightSpace_keeps_quote.
Qed.

End SuffixFacts.

Section NormalizerFacts.

Import GoStrings AsciiText TransformRules CaseFacts SuffixFacts witai.

Lemma symbolMap_values (k v : string) :
  symbolMap !! k = Some v ->
  HasSuffix v "-USDT" = true /\ ToUpper v = v /\ HasSuffix k "-usdt" = false.
Proof.
  intros Hk. apply elem_of_list_to_map_2, list_elem_of_In in Hk. simpl in Hk.
  repeat (destruct Hk as [[= <- <-] | Hk]; [now vm_compute|]). destruct Hk.
Qed.

Lemma symbolMap_no_quote (k : string) :
  HasSuffix k "-usdt" = true -> symbolMap !! k = None.
Proof.
  intros Hk. destruct (symbolMap !! k) as [v|] eqn:E; [|reflexivity].
  destruct (symbolMap_values k v E) as (_ & _ & Hno). congruence.
Qed.

Lemma normalizeSymbol_suffix (symbol : string) :
  HasSuffix (normalizeSymbol symbol) "-USDT" = true.
Proof.
  unfold normalizeSymbol. cbv zeta.
  destruct (symbolMap !! ToLower (TrimSpace symbol)) as [v|] eqn:E.
  - now destruct (symbolMap_values _ _ E).
  - destruct (HasSuffix (ToUpper symbol) "-USDT") eqn:Eh; simpl.
    + exact Eh.
    + apply HasSuffix_append.
Qed.

(** X8. Whatever the input, the symbol that [normalizeSymbol] returns ends
    in "-USDT"; it is never empty, not even for the empty input, which gives
    "-USDT". *)
Theorem normalizeSymbol_ends_in_quote (symbol : string) :
  HasSuffix (normalizeSymbol symbol) "-USDT" = true
  /\ normalizeSymbol symbol <> ""
  /\ normalizeSymbol "" = "-USDT".
Proof.
  pose proof (normalizeSymbol_suffix symbol) as Hsuffix.
  split; [exact Hsuffix|]. split; [|now vm_compute].
  intros Hempty. rewrite Hempty in Hsuffix. discriminate Hsuffix.
Qed.

Lemma normalizeSymbol_shape (symbol : string) :
  ToUpper (normalizeSymbol symbol) = normalizeSymbol symbol
  /\ exists u, normalizeSymbol symbol = (u ++ "-USDT")%string.
Proof.
  unfold normalizeSymbol. cbv zeta.
  destruct (symbolMap !! ToLower (TrimSpace symbol)) as [v|] eqn:E.
  - destruct (symbolMap_values _ _ E) as (Hs & Hu & _).
    split; [exact Hu | now apply HasSuffix_inv].
  - destruct (HasSuffix (ToUpper symbol) "-USDT") eqn:Eh; simpl.
    + split; [apply ToUpper_ToUpper | now apply HasSuffix_inv].
    + split; [|now exists (ToUpper symbol)].
      now rewrite ToUpper_append, ToUpper_ToUpper.
Qed.

(** X9. [normalizeSymbol] is idempotent: a symbol it has returned is
    returned unchanged when it is normalised again (for ASCII input). *)
Theorem normalizeSymbol_idempotent (symbol : string)
    (Hascii : is_ascii symbol = true) :
  normalizeSymbol (normalizeSymbol symbol) = normalizeSymbol symbol.
Proof.
  destruct (normalizeSymbol_shape symbol) as (Hupper & u & Hu).
  pose proof (normalizeSymbol_suffix symbol) as Hsuffix.
  set (r := normalizeSymbol symbol) in *.
  assert (Hnone : symbolMap !! ToLower (TrimSpace r) = None).
  { rewrite Hu. destruct (TrimSpace_keeps_quote u) as [u' ->].
    rewrite ToLower_append. apply symbolMap_no_quote.
    change (ToLower "-USDT") with "-usdt". apply HasSuffix_append. }
  unfold normalizeSymbol at 1. cbv zeta.
  now rewrite Hnone, Hupper, Hsuffix.
Qed.

(** X10. For ASCII input, [normalizeSide] gives "SHORT" exactly when the
    input, trimmed and in lower case, is one of sell, short, bearish,
    vender, corto, bajista, and "LONG" for every other input, the empty and
    the unrecognised ones included. *)
Theorem normalizeSide_short_or_long (side : string)
    (Hascii : is_ascii side = true) :
  (In (ToLower (TrimSpace side)) ["sell"; "short"; "bearish"; "vender"; "corto"; "bajista"]
   -> normalizeSide side = "SHORT")
  /\ (~ In (ToLower (TrimSpace side))
          ["sell"; "short"; "bearish"; "vender"; "corto"; "bajista"]
      -> normalizeSide side = "LONG")
  /\ normalizeSide "" = "LONG".
Proof.
  unfold normalizeSide. cbv zeta.
  split; [|split; [|reflexivity]].
  - intros Hin. simpl in Hin.
    repeat (destruct Hin as [<- | Hin]; [reflexivity|]). destruct Hin.
  - intros Hout.
    destruct (existsb (String.eqb (ToLower (TrimSpace side))) longSynonyms); [reflexivity|].
    destruct (existsb (String.eqb (ToLower (TrimSpace side))) shortSynonyms) eqn:E;
      [|reflexivity].
    exfalso. apply Hout. apply existsb_exists in E.
    destruct E as (x & Hx & ->%String.eqb_eq). exact Hx.
Qed.

(** X11. [mapWitIntent] returns each of the eight provider labels as the
    intent of the same name and "unknown" for every other label, the empty
    one included; its result always lies in the enumeration, and mapping a
    result again changes nothing. *)
Theorem mapWitIntent_total (witIntent : string) :
  (In witIntent provider_labels -> mapWitIntent witIntent = witIntent)
  /\ (~ In witIntent provider_labels -> mapWitIntent witIntent = types.IntentUnknown)
  /\ In (mapWitIntent witIntent) Rules.intent_enumeration
  /\ mapWitIntent (mapWitIntent witIntent) = mapWitIntent witIntent.
Proof.
  assert (Hcases :
    (In witIntent provider_labels /\ mapWitIntent witIntent = witIntent)
    \/ (~ In witIntent provider_labels /\ mapWitIntent witIntent = types.IntentUnknown)).
  { unfold mapWitIntent. destruct (intentMap !! witIntent) as [i|] eqn:E.
    - left. apply elem_of_list_to_map_2, list_elem_of_In in E. simpl in E.
      repeat (destruct E as [[= <- <-] | E]; [split; [vm_compute; tauto | reflexivity]|]).
      destruct E.
    - right. apply not_elem_of_list_to_map_2 in E. split; [|reflexivity].
      intros Hin. apply E. apply list_elem_of_In. vm_compute. exact Hin. }
  destruct Hcases as [[Hin Hw] | [Hout Hw]]; rewrite Hw.
  - split; [intros _; reflexivity|]. split; [intros Hout; contradiction|].
    split; [|exact Hw].
    simpl in Hin.
    repeat (destruct Hin as [<- | Hin]; [vm_compute; tauto|]). destruct Hin.
  - split; [intros Hin; contradiction|]. split; [intros _; reflexivity|].
    split; [vm_compute; tauto | now vm_compute].
Qed.

End NormalizerFacts.

(** ** The transformer and the processor *)

Module SplitMore.

Import GoStrings TransformRules SplitFacts.

(** Splitting a text at a separator splits the pieces on both sides. *)
Lemma Split_at_separator (a b : string) (sep : ascii) :
  Split (a ++ String sep b) sep = Split a sep ++ Split b sep.
Proof.
  induction a as [|c r IH].
  - change (Split (String sep b) sep = [""%string] ++ Split b sep).
    simpl. now rewrite Ascii.eqb_refl.
  - change (Split (String c (r ++ String sep b)) sep = Split (String c r) sep ++ Split b sep).
    simpl. destruct (Ascii.eqb c sep); [now rewrite IH|].
    rewrite IH. destruct (Split r sep) as [|piece pieces] eqn:E; [|reflexivity].
    now destruct (Split_nonempty r sep).
Qed.

Lemma length_Split (s : string) (sep : ascii) :
  length (Split s sep) = count_byte sep s + 1.
Proof.
  induction s as [|c r IH]; [reflexivity|].
  cbn [Split count_byte]. destruct (Ascii.eqb c sep).
  - cbn [length]. lia.
  - destruct (Split r sep) as [|piece pieces]; cbn [length] in *; lia.
Qed.

Lemma length_omap_le {A B} (f : A -> option B) (l : list A) :
  length (omap f l) <= length l.
Proof.
  induction l as [|x l IH]; [reflexivity|].
  change (omap f (x :: l))
    with (match f x with Some y => y :: omap f l | None => omap f l end).
  destruct (f x); cbn [length]; lia.
Qed.

End SplitMore.

Section TransformerMore.

Import GoStrings TransformRules TPRules SplitFacts SplitMore SuffixFacts witai.

Variable ParseFloat : string -> option float.

(** X12. [parseTPLevels] works token by token: the levels of two texts
    joined by a comma are the levels of the first followed by the levels of
    the second; and a text never gives more levels than it has commas, plus
    one. *)
Theorem parseTPLevels_comma (a b : string) :
  parseTPLevels ParseFloat (a ++ "," ++ b)
  = parseTPLevels ParseFloat a ++ parseTPLevels ParseFloat b
  /\ length (parseTPLevels ParseFloat a) <= count_byte "," a + 1.
Proof.
  rewrite !parseTPLevels_tokens. split.
  - change ((a ++ "," ++ b)%string) with ((a ++ String "," b)%string).
    now rewrite Split_at_separator, omap_app.
  - rewrite <- length_Split. apply length_omap_le.
Qed.

Ltac entity_cases :=
  repeat match goal with
         | |- context [if ?b then _ else _] => destruct b
         | |- context [match ?o with Some _ => _ | None => _ end] => destruct o
         end.

Lemma extractEntity_frame (cmd : NormalizedCommand) (entry : string * list WitAIEntity.t) :
  same_frame cmd (extractEntity ParseFloat cmd entry).
Proof.
  destruct entry as [name [|entity rest]]; simpl; [repeat split|].
  entity_cases; repeat split.
Qed.

Lemma extractEntities_frame (entries : list (string * list WitAIEntity.t))
    (cmd : NormalizedCommand) :
  same_frame cmd (fold_left (extractEntity ParseFloat) entries cmd).
Proof.
  revert cmd. induction entries as [|entry entries IH]; intros cmd; simpl.
  - repeat split.
  - specialize (IH (extractEntity ParseFloat cmd entry)).
    pose proof (extractEntity_frame cmd entry) as Hstep.
    unfold same_frame in *.
    destruct IH as (I1 & I2 & I3 & I4 & I5 & I6 & I7 & I8 & I9 & I10).
    destruct Hstep as (S1 & S2 & S3 & S4 & S5 & S6 & S7 & S8 & S9 & S10).
    repeat split; congruence.
Qed.

(** X13. The command that [transformWitResponse] builds always carries the
    raw input and the time of the call and is not yet validated ([Valid]
    false, [Missing] and [Errors] empty); it never has a distance, a
    risk-reward ratio or a language, whatever the entities; its intent and
    confidence are those of the first intent candidate alone, the later
    candidates being ignored, or the zero values when there is none. *)
Theorem transformWitResponse_frame (resp : WitAIResponse) (rawInput : string)
    (now : types.Time) :
  let cmd := transformWitResponse ParseFloat resp rawInput now in
  RawInput cmd = rawInput /\ Timestamp cmd = now
  /\ Valid cmd = false /\ Missing cmd = [] /\ Errors cmd = []
  /\ Distance cmd = None /\ RRRatio cmd = None /\ Language cmd = ""
  /\ match Intents resp with
     | first :: _ =>
         Intent cmd = mapWitIntent (WitAIIntent.Name first)
         /\ Confidence cmd = WitAIIntent.Confidence first
     | [] => Intent cmd = "" /\ Confidence cmd = 0%float
     end.
Proof.
  cbv zeta. unfold transformWitResponse. cbv zeta.
  match goal with
  | |- context [fold_left _ _ ?c0] =>
      destruct (extractEntities_frame (Entities resp) c0)
        as (I1 & I2 & I3 & I4 & I5 & I6 & I7 & I8 & I9 & I10)
  end.
  rewrite I1, I2, I3, I4, I5, I6, I7, I8, I9, I10.
  destruct (Intents resp) as [|first others]; repeat split.
Qed.

Lemma Symbol_extractEntity (cmd : NormalizedCommand) (entry : string * list WitAIEntity.t) :
  (String.eqb (fst entry) "symbol" && negb (Rules.is_empty (snd entry)) = false ->
   Symbol (extractEntity ParseFloat cmd entry) = Symbol cmd)
  /\ (String.eqb (fst entry) "symbol" && negb (Rules.is_empty (snd entry)) = true
      \/ HasSuffix (Symbol cmd) "-USDT" = true ->
      HasSuffix (Symbol (extractEntity ParseFloat cmd entry)) "-USDT" = true).
Proof.
  destruct entry as [name [|entity rest]]; simpl.
  - rewrite andb_false_r. split; [reflexivity | intros [[=] | H]; exact H].
  - rewrite andb_true_r. destruct (String.eqb name "symbol").
    + split; [intros [=]|]. intros _. apply normalizeSymbol_suffix.
    + split; [intros _ | intros [[=] | H]]; entity_cases; try reflexivity; exact H.
Qed.

Lemma Symbol_extractEntities (entries : list (string * list WitAIEntity.t))
    (cmd : NormalizedCommand) :
  (has_entity "symbol" entries = false ->
   Symbol (fold_left (extractEntity ParseFloat) entries cmd) = Symbol cmd)
  /\ (has_entity "symbol" entries = true \/ HasSuffix (Symbol cmd) "-USDT" = true ->
      HasSuffix (Symbol (fold_left (extractEntity ParseFloat) entries cmd)) "-USDT" = true).
Proof.
  revert cmd. induction entries as [|entry entries IH]; intros cmd.
  - simpl. split; [reflexivity | intros [[=] | H]; exact H].
  - cbn [fold_left has_entity existsb].
    fold (has_entity "symbol" entries).
    destruct (IH (extractEntity ParseFloat cmd entry)) as [IH1 IH2].
    destruct (Symbol_extractEntity cmd entry) as [S1 S2].
    split.
    + intros [Hentry Hrest]%orb_false_iff. now rewrite (IH1 Hrest), (S1 Hentry).
    + intros [[Hentry | Hrest]%orb_true_iff | Hcmd].
      * apply IH2. right. apply S2. now left.
      * apply IH2. now left.
      * apply IH2. right. apply S2. now right.
Qed.

Lemma CallbackRate_extractEntity (cmd : NormalizedCommand)
    (entry : string * list WitAIEntity.t) :
  String.eqb (fst entry) "callback_rate" && negb (Rules.is_empty (snd entry)) = false ->
  CallbackRate (extractEntity ParseFloat cmd entry) = CallbackRate cmd.
Proof.
  destruct entry as [name [|entity rest]]; simpl; [reflexivity|].
  rewrite andb_true_r.
  destruct (String.eqb name "callback_rate") eqn:Hname; [intros [=]|].
  intros _. entity_cases; reflexivity.
Qed.

Lemma CallbackRate_extractEntities (entries : list (string * list WitAIEntity.t))
    (cmd : NormalizedCommand) :
  has_entity "callback_rate" entries = false ->
  CallbackRate (fold_left (extractEntity ParseFloat) entries cmd) = CallbackRate cmd.
Proof.
  revert cmd. induction entries as [|entry entries IH]; intros cmd; [reflexivity|].
  cbn [fold_left has_entity existsb]. fold (has_entity "callback_rate" entries).
  intros [Hentry Hrest]%orb_false_iff.
  now rewrite (IH _ Hrest), (CallbackRate_extractEntity _ _ Hentry).
Qed.

(** X14. The symbol of the command comes from the symbol entity alone: with
    a symbol entity in the reply (whatever its value, the empty text
    included) the command's symbol ends in "-USDT" and is not empty; without
    one it is empty. *)
Theorem transformWitResponse_symbol (resp : WitAIResponse) (rawInput : string)
    (now : types.Time) :
  (has_entity "symbol" (Entities resp) = true ->
   HasSuffix (Symbol (transformWitResponse ParseFloat resp rawInput now)) "-USDT" = true
   /\ Symbol (transformWitResponse ParseFloat resp rawInput now) <> "")
  /\ (has_entity "symbol" (Entities resp) = false ->
      Symbol (transformWitResponse ParseFloat resp rawInput now) = "").
Proof.
  unfold transformWitResponse. cbv zeta.
  match goal with
  | |- context [fold_left _ _ ?c0] =>
      destruct (Symbol_extractEntities (Entities resp) c0) as [H1 H2];
      assert (H0 : Symbol c0 = "") by (destruct (Intents resp); reflexivity)
  end.
  split.
  - intros Hsym. assert (Hsuffix := H2 (or_introl Hsym)).
    split; [exact Hsuffix|]. intros Hempty. rewrite Hempty in Hsuffix. discriminate Hsuffix.
  - intros Hnone. now rewrite (H1 Hnone).
Qed.

End TransformerMore.

(** ** The entities, one by one and in any order *)

Section EntityOrder.

Import GoStrings TransformRules witai.

Variable ParseFloat : string -> option float.

Ltac name_cases :=
  repeat match goal with
         | |- context [String.eqb ?n ?k] => destruct (String.eqb n k)
         end.

(** Each [case] of the [switch] assigns the field of the entity name. *)
Lemma extractEntity_assign (cmd : NormalizedCommand) (name : string)
    (entity : WitAIEntity.t) (rest : list WitAIEntity.t) :
  extractEntity ParseFloat cmd (name, entity :: rest)
  = match entity_slot name with
    | Some s => assign ParseFloat s (WitAIEntity.Value entity) cmd
    | None => cmd
    end.
Proof.
  unfold extractEntity, entity_slot, is_any, existsb, assign.
  name_cases; reflexivity.
Qed.

Lemma extractEntity_no_slot (cmd : NormalizedCommand) (entry : string * list WitAIEntity.t) :
  entry_slot entry = None -> extractEntity ParseFloat cmd entry = cmd.
Proof.
  destruct entry as [name [|entity rest]]; [reflexivity|].
  unfold entry_slot. cbn [fst snd]. intros Hnone.
  now rewrite extractEntity_assign, Hnone.
Qed.

Lemma assign_comm (s1 s2 : slot) (v1 v2 : string) (cmd : NormalizedCommand) :
  s1 <> s2 ->
  assign ParseFloat s1 v1 (assign ParseFloat s2 v2 cmd)
  = assign ParseFloat s2 v2 (assign ParseFloat s1 v1 cmd).
Proof.
  intros Hne. destruct s1, s2; try congruence; unfold assign;
    destruct (ParseFloat v1), (ParseFloat v2); reflexivity.
Qed.

Lemma extractEntity_comm (cmd : NormalizedCommand) (e1 e2 : string * list WitAIEntity.t) :
  ~ clash e1 e2 ->
  extractEntity ParseFloat (extractEntity ParseFloat cmd e1) e2
  = extractEntity ParseFloat (extractEntity ParseFloat cmd e2) e1.
Proof.
  intros Hclash.
  destruct (entry_slot e1) as [s1|] eqn:E1;
    [|now rewrite !(extractEntity_no_slot _ e1 E1)].
  destruct (entry_slot e2) as [s2|] eqn:E2;
    [|now rewrite !(extractEntity_no_slot _ e2 E2)].
  destruct e1 as [n1 [|v1 r1]]; [discriminate E1|].
  destruct e2 as [n2 [|v2 r2]]; [discriminate E2|].
  unfold entry_slot in E1, E2. cbn [fst snd] in E1, E2.
  rewrite !extractEntity_assign, E1, E2.
  apply assign_comm. intros Heq. apply Hclash. exists s1.
  unfold entry_slot. cbn [fst snd]. rewrite E1, E2, Heq. auto.
Qed.

Lemma clash_sym (e1 e2 : string * list WitAIEntity.t) : clash e1 e2 -> clash e2 e1.
Proof. intros (s & H1 & H2). exists s. auto. Qed.

Lemma distinct_slots_Permutation (l l' : list (string * list WitAIEntity.t)) :
  Permutation l l' -> distinct_slots l -> distinct_slots l'.
Proof.
  induction 1 as [|x l l' Hperm IH|x y l|l l' l'' H1 IH1 H2 IH2]; simpl.
  - auto.
  - intros [Hx Hl]. split; [|auto].
    intros other Hin. apply Hx. apply Permutation_in with l'; [now symmetry | exact Hin].
  - intros [Hy [Hx Hl]]. split; [|split; [|exact Hl]].
    + intros other [<- | Hin]; [|now apply Hx].
      intros Hc. apply (Hy x); [now left | now apply clash_sym].
    + intros other Hin. apply Hy. now right.
  - auto.
Qed.

(** X15. Go visits the entries of the [Entities] map in no fixed order. When
    no two entries assign the same field, the order does not matter: every
    order of visit gives the same command.  Two entries that assign the same
    field (the two names of the entry price, say) with values that parse to
    different numbers give a command that depends on the order. *)
Theorem transformWitResponse_any_order (resp : WitAIResponse)
    (entries : list (string * list WitAIEntity.t)) (rawInput : string) (now : types.Time)
    (Hperm : Permutation (Entities resp) entries)
    (Hdistinct : distinct_slots (Entities resp)) :
  transformWitResponse ParseFloat (with_entities entries resp) rawInput now
  = transformWitResponse ParseFloat resp rawInput now
  /\ (forall v1 v2 x y,
        ParseFloat (WitAIEntity.Value v1) = Some x ->
        ParseFloat (WitAIEntity.Value v2) = Some y -> x <> y ->
        transformWitResponse ParseFloat
          (with_entities [("entry_price", [v1]); ("price:entry", [v2])] resp) rawInput now
        <> transformWitResponse ParseFloat
             (with_entities [("price:entry", [v2]); ("entry_price", [v1])] resp)
             rawInput now).
Proof.
  split.
  - unfold transformWitResponse, with_entities. cbn [Intents Entities]. cbv zeta.
    match goal with |- fold_left _ _ ?c0 = _ => generalize c0 end.
    induction Hperm as [|x l l' Hp IH|x y l|l l' l'' H1 IH1 H2 IH2]; intros cmd.
    + reflexivity.
    + cbn [fold_left]. apply IH. now destruct Hdistinct.
    + cbn [fold_left]. f_equal. apply extractEntity_comm.
      destruct Hdistinct as [Hy _]. intros Hc. apply (Hy x); [now left | now apply clash_sym].
    + rewrite IH2, IH1; [reflexivity | exact Hdistinct |].
      now apply distinct_slots_Permutation with l.
  - intros v1 v2 x y H1 H2 Hxy Heq.
    apply (f_equal EntryPrice) in Heq.
    unfold transformWitResponse, with_entities in Heq.
    cbn [Intents Entities fold_left] in Heq. cbv zeta in Heq.
    rewrite !extractEntity_assign in Heq.
    change (entity_slot "entry_price") with (Some EntryPriceSlot) in Heq.
    change (entity_slot "price:entry") with (Some EntryPriceSlot) in Heq.
    unfold assign in Heq. rewrite H1, H2 in Heq. cbn [EntryPrice set_EntryPrice] in Heq.
    congruence.
Qed.

Lemma entity_slot_names (name : string) :
  existsb (String.eqb name) entity_names = false -> entity_slot name = None.
Proof.
  unfold entity_names, existsb, entity_slot.
  name_cases; simpl; congruence.
Qed.

Lemma extractEntities_first_values (entries : list (string * list WitAIEntity.t))
    (cmd : NormalizedCommand) :
  fold_left (extractEntity ParseFloat) (first_values entries) cmd
  = fold_left (extractEntity ParseFloat) entries cmd.
Proof.
  revert cmd. induction entries as [|[name values] entries IH]; intros cmd; [reflexivity|].
  unfold first_values.
  change (omap ?f ((name, values) :: entries))
    with (match f (name, values) with
          | Some e => e :: omap f entries
          | None => omap f entries
          end).
  fold (first_values entries). cbn [fst snd fold_left].
  destruct values as [|value rest]; [apply IH|].
  destruct (existsb (String.eqb name) entity_names) eqn:E.
  - cbn [fold_left]. rewrite IH. now rewrite !extractEntity_assign.
  - rewrite IH. rewrite extractEntity_assign, (entity_slot_names _ E). reflexivity.
Qed.

(** X16. Of the entities only the first value of each entry with one of the
    twelve known names is read: entries without value, entries of other
    names and the values after the first can be dropped from the reply
    without changing the command. *)
Theorem transformWitResponse_first_values (resp : WitAIResponse) (rawInput : string)
    (now : types.Time) :
  transformWitResponse ParseFloat (with_entities (first_values (Entities resp)) resp)
    rawInput now
  = transformWitResponse ParseFloat resp rawInput now.
Proof.
  unfold transformWitResponse, with_entities. cbn [Intents Entities]. cbv zeta.
  apply extractEntities_first_values.
Qed.

End EntityOrder.

(** ** The processor: from the provider's reply to the validated command *)

Section ProcessorFacts.

Import GoStrings GoFloat TransformRules Rules ValidatorFacts ErrorFacts SuffixFacts.
Import witai processor.

Variable callWitAI : Processor -> string -> WitAIResponse + error.
Variable ParseFloat : string -> option float.

Lemma mapWitIntent_cases (witIntent : string) :
  (In witIntent provider_labels /\ mapWitIntent witIntent = witIntent)
  \/ (~ In witIntent provider_labels /\ mapWitIntent witIntent = types.IntentUnknown).
Proof.
  unfold mapWitIntent. destruct (intentMap !! witIntent) as [i|] eqn:E.
  - left. apply elem_of_list_to_map_2, list_elem_of_In in E. simpl in E.
    repeat (destruct E as [[= <- <-] | E]; [split; [vm_compute; tauto | reflexivity]|]).
    destruct E.
  - right. apply not_elem_of_list_to_map_2 in E. split; [|reflexivity].
    intros Hin. apply E. apply list_elem_of_In. vm_compute. exact Hin.
Qed.

Lemma classify_mapWitIntent (witIntent : string) :
  classify (mapWitIntent witIntent) = Unrecognized <-> ~ In witIntent provider_labels.
Proof.
  destruct (mapWitIntent_cases witIntent) as [[Hin ->] | [Hout ->]].
  - split; [|intros Hout; contradiction].
    simpl in Hin.
    repeat (destruct Hin as [<- | Hin]; [intros [=]|]). destruct Hin.
  - split; [intros _; exact Hout | reflexivity].
Qed.

Lemma unknown_message_head (i : types.Intent) :
  exists rest, ("unknown intent: " ++ i)%string = String "u" rest.
Proof. eexists. reflexivity. Qed.

(** The unknown-intent error is reported for the unrecognised intents and
    for no other. *)
Lemma In_unknown_message (c : NormalizedCommand) :
  In ("unknown intent: " ++ Intent c)%string (expected_errors c)
  <-> classify (Intent c) = Unrecognized.
Proof.
  destruct (unknown_message_head (Intent c)) as [rest Hhead].
  unfold expected_errors.
  destruct (classify (Intent c)) eqn:E;
    try solve [split; [intros [] | intros [=]]].
  - split; [|intros [=]]. rewrite Hhead. intros Hin.
    apply In_open_position_errors in Hin. destruct Hin as [Hin | [Hin | Hin]].
    + apply In_risk_error in Hin. destruct Hin as [Hm _]. discriminate Hm.
    + apply In_stop_error in Hin.
      destruct Hin as (s & e & st & _ & _ & _ & [(Hm & _) | (Hm & _)]); discriminate Hm.
    + apply In_tp_error in Hin. destruct Hin as (_ & _ & Hm).
      destruct (tp_sum_message_head (validators.totalPct (TPLevels c))) as [r Hr].
      rewrite Hr in Hm. discriminate Hm.
  - split; [reflexivity | intros _; now left].
Qed.

Lemma Intent_transformWitResponse (resp : WitAIResponse) (rawInput : string)
    (now : types.Time) :
  Intent (transformWitResponse ParseFloat resp rawInput now)
  = match Intents resp with
    | first :: _ => mapWitIntent (WitAIIntent.Name first)
    | [] => ""
    end.
Proof.
  unfold transformWitResponse. cbv zeta. rewrite Intent_extractEntities.
  now destruct (Intents resp).
Qed.

Lemma Symbol_of_reply (resp : WitAIResponse) (rawInput : string) (now : types.Time) :
  (has_entity "symbol" (Entities resp) = true ->
   HasSuffix (Symbol (transformWitResponse ParseFloat resp rawInput now)) "-USDT" = true)
  /\ (has_entity "symbol" (Entities resp) = false ->
      Symbol (transformWitResponse ParseFloat resp rawInput now) = "").
Proof.
  unfold transformWitResponse. cbv zeta.
  match goal with
  | |- context [fold_left _ _ ?c0] =>
      destruct (Symbol_extractEntities ParseFloat (Entities resp) c0) as [H1 H2];
      assert (H0 : Symbol c0 = "") by (destruct (Intents resp); reflexivity)
  end.
  split.
  - intros Hsym. apply H2. now left.
  - intros Hnone. now rewrite (H1 Hnone).
Qed.

(** X17. [ParseCommand] fails exactly when the call to the provider fails,
    with the provider's error wrapped and no command. Otherwise it returns
    the command of the reply, validated: it carries the input text, it is
    valid exactly when it has no missing field and no error, and it has the
    error "unknown intent: ..." exactly when the reply has no intent
    candidate or the name of its first candidate is none of the eight known
    labels. *)
Theorem ParseCommand_outcome (p : Processor) (input : string) (now : types.Time) :
  (forall err, callWitAI p input = inr err ->
     ParseCommand callWitAI ParseFloat p input now
     = inr ("wit.ai call failed: " ++ err)%string)
  /\ (forall resp, callWitAI p input = inl resp ->
      exists cmd,
        ParseCommand callWitAI ParseFloat p input now = inl cmd
        /\ RawInput cmd = input
        /\ (Valid cmd = true <-> Missing cmd = [] /\ Errors cmd = [])
        /\ (In ("unknown intent: " ++ Intent cmd)%string (Errors cmd)
            <-> match Intents resp with
                | first :: _ => ~ In (WitAIIntent.Name first) provider_labels
                | [] => True
                end)).
Proof.
  unfold ParseCommand. split.
  - intros err ->. reflexivity.
  - intros resp ->. cbv zeta. eexists. split; [reflexivity|].
    set (c := transformWitResponse ParseFloat resp input now).
    rewrite (ValidateCommand_outcome c).
    cbn [RawInput Valid Missing Errors Intent with_outcome set_Valid set_Missing set_Errors].
    split; [|split].
    + unfold c, transformWitResponse. cbv zeta.
      match goal with
      | |- context [fold_left _ _ ?c0] =>
          destruct (extractEntities_frame ParseFloat (Entities resp) c0)
            as (_ & _ & _ & _ & _ & _ & _ & Hraw & _)
      end.
      rewrite Hraw. now destruct (Intents resp).
    + rewrite andb_true_iff, !is_empty_true. reflexivity.
    + rewrite In_unknown_message. unfold c. rewrite Intent_transformWitResponse.
      destruct (Intents resp) as [|first others].
      * split; [auto | reflexivity].
      * apply classify_mapWitIntent.
Qed.

(** X18. Through the processor a trailing stop can only be completed by a
    callback rate: the transformer has no entity for the distance, so a
    reply labelled trailing_stop without a callback_rate entity always comes
    out invalid, with "callback_rate or distance" among the missing fields. *)
Theorem ParseCommand_trailing_stop_needs_callback_rate
    (p : Processor) (input : string) (now : types.Time)
    (resp : WitAIResponse) (first : WitAIIntent.t) (others : list WitAIIntent.t)
    (Hreply : callWitAI p input = inl resp)
    (Hintents : Intents resp = first :: others)
    (Hlabel : WitAIIntent.Name first = "trailing_stop")
    (Hnone : has_entity "callback_rate" (Entities resp) = false) :
  exists cmd,
    ParseCommand callWitAI ParseFloat p input now = inl cmd
    /\ Valid cmd = false
    /\ In "callback_rate or distance" (Missing cmd).
Proof.
  unfold ParseCommand. rewrite Hreply. cbv zeta. eexists. split; [reflexivity|].
  set (c := transformWitResponse ParseFloat resp input now).
  assert (Hintent : Intent c = types.IntentTrailingStop).
  { unfold c. now rewrite Intent_transformWitResponse, Hintents, Hlabel. }
  assert (Hcb : CallbackRate c = None /\ Distance c = None).
  { unfold c, transformWitResponse. cbv zeta. split.
    - rewrite (CallbackRate_extractEntities ParseFloat _ _ Hnone).
      now destruct (Intents resp).
    - match goal with
      | |- context [fold_left _ _ ?c0] =>
          destruct (extractEntities_frame ParseFloat (Entities resp) c0)
            as (_ & _ & _ & Hd & _)
      end.
      rewrite Hd. now destruct (Intents resp). }
  destruct Hcb as [Hcb Hdist].
  assert (Hin : In "callback_rate or distance" (expected_missing c)).
  { unfold expected_missing. rewrite (classify_trailing _ Hintent).
    unfold absent_fields, trailing_stop_required. cbn [flat_map fst snd].
    rewrite Hcb, Hdist. rewrite !in_app_iff. right. right. left. now left. }
  rewrite Valid_ValidateCommand, Missing_ValidateCommand.
  split; [|exact Hin].
  now rewrite (is_empty_false_In _ _ Hin).
Qed.

(** X19. Through the processor a close_position or break_even reply is
    valid exactly when it has a symbol entity, whatever the entity's text
    (an empty text gives the symbol "-USDT", which passes). *)
Theorem ParseCommand_close_needs_symbol_entity
    (p : Processor) (input : string) (now : types.Time)
    (resp : WitAIResponse) (first : WitAIIntent.t) (others : list WitAIIntent.t)
    (Hreply : callWitAI p input = inl resp)
    (Hintents : Intents resp = first :: others)
    (Hlabel : WitAIIntent.Name first = "close_position"
              \/ WitAIIntent.Name first = "break_even") :
  exists cmd,
    ParseCommand callWitAI ParseFloat p input now = inl cmd
    /\ Valid cmd = has_entity "symbol" (Entities resp).
Proof.
  unfold ParseCommand. rewrite Hreply. cbv zeta. eexists. split; [reflexivity|].
  set (c := transformWitResponse ParseFloat resp input now).
  assert (Hclass : expected_missing c = absent_fields (symbol_required c)
                   /\ expected_errors c = []).
  { unfold expected_missing, expected_errors, c.
    rewrite Intent_transformWitResponse, Hintents.
    destruct Hlabel as [-> | ->]; split; reflexivity. }
  destruct Hclass as [Hm He].
  rewrite Valid_ValidateCommand, Hm, He.
  unfold absent_fields, symbol_required. cbn [flat_map fst snd].
  rewrite andb_true_r, app_nil_r.
  destruct (Symbol_of_reply resp input now) as [Hwith Hwithout]. fold c in Hwith, Hwithout.
  destruct (has_entity "symbol" (Entities resp)) eqn:Hsym.
  - specialize (Hwith eq_refl).
    destruct (String.eqb_spec (Symbol c) "") as [Hempty|_]; [|reflexivity].
    rewrite Hempty in Hwith. discriminate Hwith.
  - now rewrite (Hwithout eq_refl).
Qed.

End ProcessorFacts.

(** ** The further properties at examples *)

Lemma symbol_is_the_only_requirement_witness :
  Missing (validators.ValidateCommand (Examples.blank types.IntentClosePosition))
    = ["symbol"]
  /\ Errors (validators.ValidateCommand (Examples.blank types.IntentClosePosition)) = []
  /\ Valid (validators.ValidateCommand (Examples.blank types.IntentClosePosition)) = false.
Proof.
  exact (symbol_is_the_only_requirement (Examples.blank types.IntentClosePosition)
           (or_introl eq_refl)).
Defined.

Lemma query_intents_always_valid_witness :
  Valid (validators.ValidateCommand (Examples.blank types.IntentCheckBalance)) = true
  /\ Missing (validators.ValidateCommand (Examples.blank types.IntentCheckBalance)) = []
  /\ Errors (validators.ValidateCommand (Examples.blank types.IntentCheckBalance)) = [].
Proof.
  apply query_intents_always_valid. simpl. tauto.
Defined.

Lemma open_position_valid_iff_witness :
  Valid (validators.ValidateCommand TPExamples.tp_100) = true
  /\ Valid (validators.ValidateCommand TPExamples.tp_three_110) = false.
Proof.
  split.
  - apply (open_position_valid_iff TPExamples.tp_100 eq_refl).
    split; [discriminate|].
    exists types.SideLong, 45000%float, 44500%float, 2%float.
    repeat split; try (intros; reflexivity); try discriminate.
    right. reflexivity.
  - destruct (Valid (validators.ValidateCommand TPExamples.tp_three_110)) eqn:Hvalid;
      [|reflexivity].
    apply (open_position_valid_iff TPExamples.tp_three_110 eq_refl) in Hvalid.
    destruct Hvalid as (_ & side & entry & stop & risk & _ & _ & _ & _ & _ & _ & _ & _ & Htp).
    destruct Htp as [Hnil | Hsum]; [discriminate Hnil | discriminate Hsum].
Defined.

Lemma normalizeSide_short_or_long_witness :
  witai.normalizeSide " VENDER " = "SHORT" /\ witai.normalizeSide "gibberish" = "LONG".
Proof.
  split.
  - destruct (normalizeSide_short_or_long " VENDER " eq_refl) as (Hshort & _).
    apply Hshort. simpl. tauto.
  - destruct (normalizeSide_short_or_long "gibberish" eq_refl) as (_ & Hlong & _).
    apply Hlong. simpl. intros Hin.
    repeat (destruct Hin as [Hin | Hin]; [discriminate Hin|]). exact Hin.
Defined.

Lemma normalizers_ignore_letter_case_witness :
  witai.normalizeSide " VENDER " = witai.normalizeSide " vender "
  /\ witai.normalizeSymbol " VENDER " = witai.normalizeSymbol " vender ".
Proof.
  apply normalizers_ignore_letter_case; reflexivity.
Defined.

Lemma normalizeSymbol_idempotent_witness :
  witai.normalizeSymbol (witai.normalizeSymbol " xyz ") = witai.normalizeSymbol " xyz ".
Proof.
  apply normalizeSymbol_idempotent. reflexivity.
Defined.

Lemma transformWitResponse_any_order_witness :
  witai.transformWitResponse witai.ParseFloat_digits
    (TransformRules.with_entities Replies.risk_then_symbol Replies.symbol_then_risk)
    "open" 0%Z
  = witai.transformWitResponse witai.ParseFloat_digits Replies.symbol_then_risk "open" 0%Z.
Proof.
  apply (transformWitResponse_any_order witai.ParseFloat_digits
           Replies.symbol_then_risk Replies.risk_then_symbol "open" 0%Z).
  - apply perm_swap.
  - simpl. split; [|split; [intros other []|exact I]].
    intros other [<- | []] (s & H1 & H2). vm_compute in H1, H2. congruence.
Defined.

Lemma ParseCommand_trailing_stop_needs_callback_rate_witness :
  exists cmd,
    processor.ParseCommand (Replies.always Replies.trailing_no_callback)
      witai.ParseFloat_digits Replies.some_processor "set trailing stop" 0%Z = inl cmd
    /\ Valid cmd = false
    /\ In "callback_rate or distance" (Missing cmd).
Proof.
  apply (ParseCommand_trailing_stop_needs_callback_rate
           (Replies.always Replies.trailing_no_callback) witai.ParseFloat_digits
           Replies.some_processor "set trailing stop" 0%Z Replies.trailing_no_callback
           (witai.WitAIIntent.mk "" "trailing_stop" 0.5%float) []);
    reflexivity.
Defined.

Lemma ParseCommand_close_needs_symbol_entity_witness :
  exists cmd,
    processor.ParseCommand (Replies.always Replies.close_eth)
      witai.ParseFloat_digits Replies.some_processor "close ETH position" 0%Z = inl cmd
    /\ Valid cmd = true.
Proof.
  apply (ParseCommand_close_needs_symbol_entity
           (Replies.always Replies.close_eth) witai.ParseFloat_digits
           Replies.some_processor "close ETH position" 0%Z Replies.close_eth
           (witai.WitAIIntent.mk "" "close_position" 0.5%float) []);
    [reflexivity | reflexivity | now left].
Defined.
